(** * Billing state reconciliation of the subscription dashboard

    A shallow embedding of the Stripe webhook handlers
    (server/src/routes/webhooks.ts: [handleSubscriptionUpdate],
    [handleSubscriptionDeleted], [handlePaymentSucceeded],
    [handlePaymentFailed], [handleCustomerCreated] and the POST /stripe
    route) and of the subscription lifecycle routes
    (server/src/routes/subscriptions.ts: create, cancel, reactivate),
    over the tables of the Prisma schema.

    The handlers are [async] functions that await storage and processor
    calls inside [try]/[catch]. They are embedded in a state-and-exception
    monad over a [World]: the tables, a log, and a counter of the effects
    performed so far. Everything the handlers cannot decide themselves (whether
    a storage call fails, what the payment processor answers, the clock, the
    generated row ids, JavaScript's number and case formatting) is read from
    an environment [Env] indexed by that counter. *)

From Stdlib Require Import List String Ascii ZArith Bool Lia DecimalString.
Import ListNotations.
Set Warnings "-register-all".
Local Open Scope string_scope.
Local Open Scope Z_scope.

(** ** The Prisma schema *)

(** [DateTime] values are milliseconds since the epoch, as in
    [new Date(ms)]. *)
Definition DateTime := Z.

Module SubscriptionStatus.
Inductive t :=
  | ACTIVE | CANCELED | INCOMPLETE | INCOMPLETE_EXPIRED
  | PAST_DUE | TRIALING | UNPAID.

Definition name (s : t) : string :=
  match s with
  | ACTIVE => "ACTIVE"
  | CANCELED => "CANCELED"
  | INCOMPLETE => "INCOMPLETE"
  | INCOMPLETE_EXPIRED => "INCOMPLETE_EXPIRED"
  | PAST_DUE => "PAST_DUE"
  | TRIALING => "TRIALING"
  | UNPAID => "UNPAID"
  end.

(** What the client library accepts where the schema asks for this enum:
    exactly the names of its members. *)
Definition parse (s : string) : option t :=
  if (s =? "ACTIVE")%string then Some ACTIVE
  else if (s =? "CANCELED")%string then Some CANCELED
  else if (s =? "INCOMPLETE")%string then Some INCOMPLETE
  else if (s =? "INCOMPLETE_EXPIRED")%string then Some INCOMPLETE_EXPIRED
  else if (s =? "PAST_DUE")%string then Some PAST_DUE
  else if (s =? "TRIALING")%string then Some TRIALING
  else if (s =? "UNPAID")%string then Some UNPAID
  else None.
End SubscriptionStatus.

Module PaymentStatus.
Inductive t := SUCCEEDED | PENDING | FAILED | CANCELED | REFUNDED.
End PaymentStatus.

(** JSON values, for the [metadata] column and for request bodies. *)
Inductive Json :=
| JNull
| JBool (b : bool)
| JNum (n : Z)
| JStr (s : string)
| JObj (fields : list (string * Json)).

(** Columns the billing routes neither read nor write (password, role,
    isEmailVerified, createdAt of a user; the plan's product, interval and
    features) are left out of the rows. *)
Module User.
Record t := mk {
  id : string;
  email : string;
  firstName : string;
  lastName : string;
  stripeCustomerId : option string;
  companyId : option string;
  updatedAt : DateTime
}.
End User.

Module Plan.
Record t := mk {
  id : string;
  name : string;
  stripePriceId : string;
  amount : Z;
  currency : string
}.
End Plan.

Module Subscription.
Record t := mk {
  id : string;
  stripeSubscriptionId : string;
  status : SubscriptionStatus.t;
  priceId : string;
  quantity : Z;
  currentPeriodStart : DateTime;
  currentPeriodEnd : DateTime;
  cancelAtPeriodEnd : bool;
  canceledAt : option DateTime;
  trialStart : option DateTime;
  trialEnd : option DateTime;
  createdAt : DateTime;
  updatedAt : DateTime;
  userId : string;
  companyId : option string;
  planId : string
}.
End Subscription.

Module Payment.
Record t := mk {
  id : string;
  stripePaymentId : string;
  amount : Z;
  currency : string;
  status : PaymentStatus.t;
  description : option string;
  receiptUrl : option string;
  createdAt : DateTime;
  updatedAt : DateTime;
  userId : string;
  subscriptionId : option string
}.
End Payment.

Module UserActivity.
Record t := mk {
  id : string;
  action : string;
  description : option string;
  metadata : option Json;
  ipAddress : option string;
  userAgent : option string;
  createdAt : DateTime;
  userId : string
}.
End UserActivity.

(** The tables. Rows are kept in insertion order. *)
Record DB := mkDB {
  users : list User.t;
  plans : list Plan.t;
  subscriptions : list Subscription.t;
  payments : list Payment.t;
  activities : list UserActivity.t
}.

(** ** Objects of the payment processor *)

(** A field typed [string | Object | null] in the processor's SDK: absent,
    an id, or the expanded object (of which only the id is read). *)
Inductive Expandable :=
| Null
| Ref (id : string)
| Expanded (id : string).

Module Stripe.
(** [Stripe.Subscription]: [status] is a string on the wire; times are in
    seconds. [client_secret] stands for
    [latest_invoice?.payment_intent?.client_secret]. *)
Record Subscription := mkSubscription {
  id : string;
  status : string;
  current_period_start : Z;
  current_period_end : Z;
  cancel_at_period_end : bool;
  canceled_at : option Z;
  trial_start : option Z;
  trial_end : option Z;
  client_secret : option string
}.

Record Invoice := mkInvoice {
    subscription : Expandable;
  payment_intent : Expandable;
  amount_paid : Z;
  amount_due : Z;
  currency : string;
  description : option string;
  hosted_invoice_url : option string
}.

Record Customer := mkCustomer {
    customer_id : string;
  metadata_userId : option string
}.

(** [Stripe.Event], a union discriminated by [type]. *)
Inductive Event :=
  | customer_subscription_created (o : Subscription)
  | customer_subscription_updated (o : Subscription)
  | customer_subscription_deleted (o : Subscription)
  | invoice_payment_succeeded (o : Invoice)
  | invoice_payment_failed (o : Invoice)
  | customer_created (o : Customer)
  | other (type : string).
End Stripe.

(** ** Exceptions, log, world and environment *)

Inductive Exn :=
| PrismaValidationError          (* an argument does not fit the schema *)
| UniqueConstraintFailed (field : string)
| RecordNotFound
| StorageFailure                 (* any other failure of a storage call *)
| StripeError.

Inductive Level := Info | Warn | Error.

Record World := mkWorld {
  db : DB;
  tick : nat;
  log : list (Level * string)
}.

(** The environment. Every storage call, processor call and clock reading is
    one effect; the [n]-th effect of a run consults the environment at [n].
    [db_fault n] says that the storage call made as effect [n] fails for a
    reason outside the schema constraints modelled below (connection loss, a
    violated foreign key, a clash of generated ids). The processor calls
    answer [None] or [false] when the SDK throws. *)
Record Env := mkEnv {
  db_fault : nat -> bool;
  clock : nat -> DateTime;
  cuid : nat -> string;
  stripe_customers_create :
    nat -> string -> string -> string -> option string;
  stripe_paymentMethods_attach : nat -> string -> string -> bool;
  stripe_customers_update : nat -> string -> string -> bool;
  stripe_subscriptions_create :
    nat -> string -> string -> option Stripe.Subscription;
  stripe_subscriptions_update : nat -> string -> bool -> bool;
  stripe_subscriptions_cancel : nat -> string -> bool;
  (** [stripe.webhooks.constructEvent(body, sig, secret)]: the verified event
      or the message of the error thrown. *)
  constructEvent : string -> option string -> string -> Stripe.Event + string;
  endpointSecret : string;
  (** [`${n / 100}`], [`${n}`] and [s.toUpperCase()]. *)
  js_div100_toString : Z -> string;
  js_toString : Z -> string;
  js_toUpperCase : string -> string
}.

Inductive Outcome (A : Type) :=
| Ok (a : A)
| Throw (e : Exn).
Arguments Ok {A} a.
Arguments Throw {A} e.

Definition M (A : Type) := World -> Outcome A * World.

Definition ret {A} (a : A) : M A := fun w => (Ok a, w).

Definition bind {A B} (m : M A) (k : A -> M B) : M B :=
  fun w =>
    match m w with
    | (Ok a, w') => k a w'
    | (Throw e, w') => (Throw e, w')
    end.

Definition throw {A} (e : Exn) : M A := fun w => (Throw e, w).

(** [try { m } catch (e) { h e }] *)
Definition try_catch {A} (m : M A) (h : Exn -> M A) : M A :=
  fun w =>
    match m w with
    | (Ok a, w') => (Ok a, w')
    | (Throw e, w') => h e w'
    end.

Notation "x <- m ;; k" := (bind m (fun x => k))
  (at level 61, m at next level, right associativity).
Notation "m ;;; k" := (bind m (fun _ => k))
  (at level 61, right associativity).

Definition next (w : World) : World :=
  mkWorld (db w) (S (tick w)) (log w).

(** [logger.info], [logger.warn], [logger.error]: the log keeps the level and
    the message, not the error or metadata object passed along. *)
Definition logger (l : Level) (msg : string) : M unit :=
  fun w => (Ok tt, mkWorld (db w) (tick w) (log w ++ [(l, msg)])).

(** ** JavaScript truthiness and small helpers *)

Definition nonempty (s : string) : bool := negb (s =? "")%string.

(** [if (v)] for a JSON value. *)
Definition truthy (v : Json) : bool :=
  match v with
  | JNull => false
  | JBool b => b
  | JNum n => negb (n =? 0)
  | JStr s => nonempty s
  | JObj _ => true
  end.

(** [if (x)] for a [string | Object | null] field. *)
Definition truthy_exp (x : Expandable) : bool :=
  match x with
  | Null => false
  | Ref s => nonempty s
  | Expanded _ => true
  end.

(** [s || d] for [s : string | null]. *)
Definition or_else (s : option string) (d : string) : string :=
  match s with
  | Some x => if nonempty x then x else d
  | None => d
  end.

(** [if (s)] for [s : string | null]. *)
Definition truthy_str (s : option string) : bool := nonempty (or_else s "").

(** [t ? new Date(t * 1000) : null] for a time in seconds. *)
Definition date_of_seconds (t : option Z) : option DateTime :=
  match t with
  | Some x => if x =? 0 then None else Some (x * 1000)
  | None => None
  end.

(** The schema's [Int] columns hold 32-bit integers. *)
Definition int32 (n : Z) : bool := (- 2 ^ 31 <=? n) && (n <? 2 ^ 31).

Fixpoint update_first {A} (p : A -> bool) (f : A -> A) (l : list A) : list A :=
  match l with
  | [] => []
  | x :: r => if p x then f x :: r else x :: update_first p f r
  end.

Definition set_users (d : DB) (l : list User.t) : DB :=
  mkDB l (plans d) (subscriptions d) (payments d) (activities d).
Definition set_subscriptions (d : DB) (l : list Subscription.t) : DB :=
  mkDB (users d) (plans d) l (payments d) (activities d).
Definition add_subscription (s : Subscription.t) (d : DB) : DB :=
  set_subscriptions d (subscriptions d ++ [s]).
Definition add_payment (p : Payment.t) (d : DB) : DB :=
  mkDB (users d) (plans d) (subscriptions d) (payments d ++ [p]) (activities d).
Definition add_activity (a : UserActivity.t) (d : DB) : DB :=
  mkDB (users d) (plans d) (subscriptions d) (payments d) (activities d ++ [a]).

(** ** Arguments of the storage calls *)

(** The [where] of a subscription query. *)
Inductive SubscriptionWhere :=
| where_id (id : string)
| where_stripeSubscriptionId (ref : string)
| where_id_userId (id userId : string).

Definition matches (w : SubscriptionWhere) (s : Subscription.t) : bool :=
  match w with
  | where_id i => (Subscription.id s =? i)%string
  | where_stripeSubscriptionId r =>
      (Subscription.stripeSubscriptionId s =? r)%string
  | where_id_userId i u =>
      (Subscription.id s =? i)%string && (Subscription.userId s =? u)%string
  end.

(** The [data] of [subscription.update]: [None] is [undefined] (the column is
    left alone). [status] and [cancelAtPeriodEnd] are carried as the handler
    passes them ([as any], and a value read from the request body); the
    client library checks them against the schema. *)
Module SubscriptionUpdate.
Record t := mk {
  status : option string;
  currentPeriodStart : option DateTime;
  currentPeriodEnd : option DateTime;
  cancelAtPeriodEnd : option Json;
  canceledAt : option (option DateTime);
  trialStart : option (option DateTime);
  trialEnd : option (option DateTime)
}.

Record checked := mk_checked {
  c_status : option SubscriptionStatus.t;
  c_cancelAtPeriodEnd : option bool
}.

Definition check (u : t) : option checked :=
  match
    match status u with
    | None => Some None
    | Some s => option_map Some (SubscriptionStatus.parse s)
    end,
    match cancelAtPeriodEnd u with
    | None => Some None
    | Some (JBool b) => Some (Some b)
    | Some _ => None
    end
  with
  | Some st, Some fl => Some (mk_checked st fl)
  | _, _ => None
  end.

Definition upd {A} (o : option A) (old : A) : A :=
  match o with
  | Some v => v
  | None => old
  end.

(** The row after the update; [updatedAt] is an [@updatedAt] column. *)
Definition patch (u : t) (c : checked) (now : DateTime)
    (s : Subscription.t) : Subscription.t :=
  Subscription.mk
    (Subscription.id s)
    (Subscription.stripeSubscriptionId s)
    (upd (c_status c) (Subscription.status s))
    (Subscription.priceId s)
    (Subscription.quantity s)
    (upd (currentPeriodStart u) (Subscription.currentPeriodStart s))
    (upd (currentPeriodEnd u) (Subscription.currentPeriodEnd s))
    (upd (c_cancelAtPeriodEnd c) (Subscription.cancelAtPeriodEnd s))
    (upd (canceledAt u) (Subscription.canceledAt s))
    (upd (trialStart u) (Subscription.trialStart s))
    (upd (trialEnd u) (Subscription.trialEnd s))
    (Subscription.createdAt s)
    now
    (Subscription.userId s)
    (Subscription.companyId s)
    (Subscription.planId s).
End SubscriptionUpdate.

Module SubscriptionCreate.
Record t := mk {
  stripeSubscriptionId : string;
  userId : string;
  planId : string;
  companyId : option string;
  status : string;
  currentPeriodStart : DateTime;
  currentPeriodEnd : DateTime;
  priceId : string
}.
End SubscriptionCreate.

Module PaymentCreate.
Record t := mk {
  stripePaymentId : Expandable;
  amount : Z;
  currency : string;
  status : PaymentStatus.t;
  description : option string;
  receiptUrl : option string;
  userId : string;
  subscriptionId : string
}.
End PaymentCreate.

Module UserActivityCreate.
Record t := mk {
  userId : string;
  action : string;
  description : string;
  metadata : Json
}.
End UserActivityCreate.

(** ** Responses *)

Inductive Body :=
| error_body (msg : string)                     (* { error: msg } *)
| text_body (s : string)                        (* res.send(s) *)
| received_body                                 (* { received: true } *)
| subscription_body (s : Subscription.t) (p : option Plan.t)
                                                (* { success, subscription } *)
| created_body (s : Subscription.t) (p : option Plan.t)
    (clientSecret : option string).

Record Response := mkResponse {
  status_code : Z;
  body : Body
}.

(** ** The storage client, the processor client and the handlers *)

Section Handlers.

Variable E : Env.

(** One storage call: it fails as a whole, leaving the tables alone, when the
    environment says so; otherwise the query [q] runs with the number of the
    effect (for the generated id and timestamps). *)
Definition storage {A} (q : nat -> DB -> Outcome A * DB) : M A :=
  fun w =>
    if db_fault E (tick w) then (Throw StorageFailure, next w)
    else
      match q (tick w) (db w) with
      | (r, d) => (r, mkWorld d (S (tick w)) (log w))
      end.

(** One call of the processor's SDK. *)
Definition stripe_call {A} (answer : nat -> option A) : M A :=
  fun w =>
    match answer (tick w) with
    | Some a => (Ok a, next w)
    | None => (Throw StripeError, next w)
    end.

Definition unit_answer (b : bool) : option unit :=
  if b then Some tt else None.

(** [new Date()] and [Date.now()] *)
Definition now : M DateTime :=
  fun w => (Ok (clock E (tick w)), next w).

Definition join_plan (include_plan : bool) (d : DB) (s : Subscription.t)
    : option Plan.t :=
  if include_plan
  then find (fun p => (Plan.id p =? Subscription.planId s)%string) (plans d)
  else None.

(** [prisma.subscription.findUnique({ where: { stripeSubscriptionId } })];
    the argument is what the caller casts with [as string]. *)
Definition prisma_subscription_findUnique (stripeSubscriptionId : Expandable)
    : M (option Subscription.t) :=
  match stripeSubscriptionId with
  | Ref r =>
      storage (fun _ d =>
        (Ok (find (matches (where_stripeSubscriptionId r)) (subscriptions d)),
         d))
  | _ => throw PrismaValidationError
  end.

(** [prisma.subscription.findFirst({ where: { id, userId } })] *)
Definition prisma_subscription_findFirst (id userId : string)
    : M (option Subscription.t) :=
  storage (fun _ d =>
    (Ok (find (matches (where_id_userId id userId)) (subscriptions d)), d)).

(** [prisma.subscription.update({ where, data, include })] *)
Definition prisma_subscription_update (wh : SubscriptionWhere)
    (data : SubscriptionUpdate.t) (include_plan : bool)
    : M (Subscription.t * option Plan.t) :=
  match SubscriptionUpdate.check data with
  | None => throw PrismaValidationError
  | Some c =>
      storage (fun n d =>
        match find (matches wh) (subscriptions d) with
        | None => (Throw RecordNotFound, d)
        | Some s =>
            let f := SubscriptionUpdate.patch data c (clock E n) in
            (Ok (f s, join_plan include_plan d s),
             set_subscriptions d
               (update_first (matches wh) f (subscriptions d)))
        end)
  end.

(** [prisma.subscription.create({ data, include: { plan: true } })];
    [stripeSubscriptionId] is [@unique]. *)
Definition prisma_subscription_create (data : SubscriptionCreate.t)
    : M (Subscription.t * option Plan.t) :=
  match SubscriptionStatus.parse (SubscriptionCreate.status data) with
  | None => throw PrismaValidationError
  | Some st =>
      storage (fun n d =>
        if existsb
             (matches (where_stripeSubscriptionId
                         (SubscriptionCreate.stripeSubscriptionId data)))
             (subscriptions d)
        then (Throw (UniqueConstraintFailed "stripeSubscriptionId"), d)
        else
          let s := Subscription.mk
            (cuid E n)
            (SubscriptionCreate.stripeSubscriptionId data)
            st
            (SubscriptionCreate.priceId data)
            1
            (SubscriptionCreate.currentPeriodStart data)
            (SubscriptionCreate.currentPeriodEnd data)
            false None None None
            (clock E n) (clock E n)
            (SubscriptionCreate.userId data)
            (SubscriptionCreate.companyId data)
            (SubscriptionCreate.planId data) in
          (Ok (s, join_plan true d s), add_subscription s d))
  end.

(** [prisma.payment.create({ data })]; [stripePaymentId] is a required
    [String @unique], [amount] an [Int]. *)
Definition prisma_payment_create (data : PaymentCreate.t) : M Payment.t :=
  match PaymentCreate.stripePaymentId data with
  | Ref pid =>
      if int32 (PaymentCreate.amount data) then
        storage (fun n d =>
          if existsb (fun p => (Payment.stripePaymentId p =? pid)%string)
               (payments d)
          then (Throw (UniqueConstraintFailed "stripePaymentId"), d)
          else
            let p := Payment.mk
              (cuid E n)
              pid
              (PaymentCreate.amount data)
              (PaymentCreate.currency data)
              (PaymentCreate.status data)
              (PaymentCreate.description data)
              (PaymentCreate.receiptUrl data)
              (clock E n) (clock E n)
              (PaymentCreate.userId data)
              (Some (PaymentCreate.subscriptionId data)) in
            (Ok p, add_payment p d))
      else throw PrismaValidationError
  | _ => throw PrismaValidationError
  end.

(** [prisma.userActivity.create({ data })] *)
Definition prisma_userActivity_create (data : UserActivityCreate.t)
    : M UserActivity.t :=
  storage (fun n d =>
    let a := UserActivity.mk
      (cuid E n)
      (UserActivityCreate.action data)
      (Some (UserActivityCreate.description data))
      (Some (UserActivityCreate.metadata data))
      None None
      (clock E n)
      (UserActivityCreate.userId data) in
    (Ok a, add_activity a d)).

(** [prisma.plan.findUnique({ where: { id } })] *)
Definition prisma_plan_findUnique (id : string) : M (option Plan.t) :=
  storage (fun _ d =>
    (Ok (find (fun p => (Plan.id p =? id)%string) (plans d)), d)).

Definition link_customer (customerId : string) (t : DateTime) (u : User.t)
    : User.t :=
  User.mk (User.id u) (User.email u) (User.firstName u) (User.lastName u)
    (Some customerId) (User.companyId u) t.

(** [prisma.user.update({ where: { id }, data: { stripeCustomerId } })];
    [stripeCustomerId] is [@unique]. *)
Definition prisma_user_update (id customerId : string) : M unit :=
  storage (fun n d =>
    let is_user := fun u => (User.id u =? id)%string in
    match find is_user (users d) with
    | None => (Throw RecordNotFound, d)
    | Some _ =>
        if existsb
             (fun u => negb (is_user u) &&
                match User.stripeCustomerId u with
                | Some c => (c =? customerId)%string
                | None => false
                end)
             (users d)
        then (Throw (UniqueConstraintFailed "stripeCustomerId"), d)
        else
          (Ok tt,
           set_users d
             (update_first is_user (link_customer customerId (clock E n))
                (users d)))
    end).

(** *** webhooks.ts *)

Definition handleSubscriptionUpdate (subscription : Stripe.Subscription)
    : M unit :=
  try_catch
    (existingSubscription <-
       prisma_subscription_findUnique (Ref (Stripe.id subscription)) ;;
     match existingSubscription with
     | Some _ =>
         prisma_subscription_update
           (where_stripeSubscriptionId (Stripe.id subscription))
           (SubscriptionUpdate.mk
              (Some (Stripe.status subscription))
              (Some (Stripe.current_period_start subscription * 1000))
              (Some (Stripe.current_period_end subscription * 1000))
              (Some (JBool (Stripe.cancel_at_period_end subscription)))
              (Some (date_of_seconds (Stripe.canceled_at subscription)))
              (Some (date_of_seconds (Stripe.trial_start subscription)))
              (Some (date_of_seconds (Stripe.trial_end subscription))))
           false ;;;
         logger Info "Subscription updated"
     | None => ret tt
     end)
    (fun _ => logger Error "Error updating subscription").

Definition handleSubscriptionDeleted (subscription : Stripe.Subscription)
    : M unit :=
  try_catch
    (t <- now ;;
     prisma_subscription_update
       (where_stripeSubscriptionId (Stripe.id subscription))
       (SubscriptionUpdate.mk
          (Some "CANCELED") None None None (Some (Some t)) None None)
       false ;;;
     logger Info "Subscription deleted")
    (fun _ => logger Error "Error deleting subscription").

(** [typeof pi === 'string' ? pi : pi?.id || null] *)
Definition paymentId_json (pi : Expandable) : Json :=
  match pi with
  | Ref s => JStr s
  | Expanded i => if nonempty i then JStr i else JNull
  | Null => JNull
  end.

Definition payment_metadata (pi : Expandable) (amount : Z) (currency : string)
    : Json :=
  JObj [("paymentId", paymentId_json pi);
        ("amount", JNum amount);
        ("currency", JStr currency)].

Definition handlePaymentSucceeded (invoice : Stripe.Invoice) : M unit :=
  try_catch
    (if truthy_exp (Stripe.subscription invoice) then
       subscription <-
         prisma_subscription_findUnique (Stripe.subscription invoice) ;;
       match subscription with
       | Some subscription =>
           prisma_payment_create
             (PaymentCreate.mk
                (Stripe.payment_intent invoice)
                (Stripe.amount_paid invoice)
                (Stripe.currency invoice)
                PaymentStatus.SUCCEEDED
                (Some (or_else (Stripe.description invoice)
                         "Subscription payment"))
                (Stripe.hosted_invoice_url invoice)
                (Subscription.userId subscription)
                (Subscription.id subscription)) ;;;
           prisma_userActivity_create
             (UserActivityCreate.mk
                (Subscription.userId subscription)
                "PAYMENT_SUCCEEDED"
                ("Payment succeeded for amount: "
                   ++ js_div100_toString E (Stripe.amount_paid invoice)
                   ++ " " ++ js_toUpperCase E (Stripe.currency invoice))
                (payment_metadata (Stripe.payment_intent invoice)
                   (Stripe.amount_paid invoice) (Stripe.currency invoice))) ;;;
           logger Info "Payment succeeded"
       | None => ret tt
       end
     else ret tt)
    (fun _ => logger Error "Error handling payment succeeded").

Definition handlePaymentFailed (invoice : Stripe.Invoice) : M unit :=
  try_catch
    (if truthy_exp (Stripe.subscription invoice) then
       subscription <-
         prisma_subscription_findUnique (Stripe.subscription invoice) ;;
       match subscription with
       | Some subscription =>
           (* invoice.payment_intent as string || `failed_${Date.now()}` *)
           stripePaymentId <-
             (if truthy_exp (Stripe.payment_intent invoice)
              then ret (Stripe.payment_intent invoice)
              else t <- now ;; ret (Ref ("failed_" ++ js_toString E t))) ;;
           prisma_payment_create
             (PaymentCreate.mk
                stripePaymentId
                (Stripe.amount_due invoice)
                (Stripe.currency invoice)
                PaymentStatus.FAILED
                (Some (or_else (Stripe.description invoice)
                         "Subscription payment failed"))
                None
                (Subscription.userId subscription)
                (Subscription.id subscription)) ;;;
           prisma_userActivity_create
             (UserActivityCreate.mk
                (Subscription.userId subscription)
                "PAYMENT_FAILED"
                ("Payment failed for amount: "
                   ++ js_div100_toString E (Stripe.amount_due invoice)
                   ++ " " ++ js_toUpperCase E (Stripe.currency invoice))
                (payment_metadata (Stripe.payment_intent invoice)
                   (Stripe.amount_due invoice) (Stripe.currency invoice))) ;;;
           logger Warn "Payment failed"
       | None => ret tt
       end
     else ret tt)
    (fun _ => logger Error "Error handling payment failed").

Definition handleCustomerCreated (customer : Stripe.Customer) : M unit :=
  try_catch
    (match Stripe.metadata_userId customer with
     | Some userId =>
         if nonempty userId then
           prisma_user_update userId (Stripe.customer_id customer) ;;;
           logger Info "Customer created and linked"
         else ret tt
     | None => ret tt
     end)
    (fun _ => logger Error "Error handling customer created").

(** POST /api/webhooks/stripe, on the raw body and the [stripe-signature]
    header. *)
Definition webhook (body : string) (sig : option string) : M Response :=
  match constructEvent E body sig (endpointSecret E) with
  | inr message =>
      logger Error "Webhook signature verification failed" ;;;
      ret (mkResponse 400 (text_body ("Webhook Error: " ++ message)))
  | inl event =>
      try_catch
        (match event with
         | Stripe.customer_subscription_created o
         | Stripe.customer_subscription_updated o =>
             handleSubscriptionUpdate o
         | Stripe.customer_subscription_deleted o =>
             handleSubscriptionDeleted o
         | Stripe.invoice_payment_succeeded o => handlePaymentSucceeded o
         | Stripe.invoice_payment_failed o => handlePaymentFailed o
         | Stripe.customer_created o => handleCustomerCreated o
         | Stripe.other type =>
             logger Info ("Unhandled event type: " ++ type)
         end ;;;
         ret (mkResponse 200 received_body))
        (fun _ =>
           logger Error "Webhook processing error" ;;;
           ret (mkResponse 500 (error_body "Webhook processing failed")))
  end.

(** *** subscriptions.ts

    The routes run behind the [auth] middleware: [user] is the row it loaded
    for the bearer of the token. *)

Definition server_error : Response :=
  mkResponse 500 (error_body "Server error").

(** POST /api/subscriptions/create with [{ planId, paymentMethodId }] *)
Definition create (user : User.t) (planId paymentMethodId : string)
    : M Response :=
  try_catch
    (plan <- prisma_plan_findUnique planId ;;
     match plan with
     | None => ret (mkResponse 404 (error_body "Plan not found"))
     | Some plan =>
         customerId <-
           (if truthy_str (User.stripeCustomerId user)
            then ret (or_else (User.stripeCustomerId user) "")
            else
              customer <-
                stripe_call (fun n =>
                  stripe_customers_create E n
                    (User.email user)
                    (User.firstName user ++ " " ++ User.lastName user)
                    (User.id user)) ;;
              prisma_user_update (User.id user) customer ;;;
              ret customer) ;;
         stripe_call (fun n => unit_answer
           (stripe_paymentMethods_attach E n paymentMethodId customerId)) ;;;
         stripe_call (fun n => unit_answer
           (stripe_customers_update E n customerId paymentMethodId)) ;;;
         stripeSubscription <-
           stripe_call (fun n =>
             stripe_subscriptions_create E n customerId
               (Plan.stripePriceId plan)) ;;
         created <-
           prisma_subscription_create
             (SubscriptionCreate.mk
                (Stripe.id stripeSubscription)
                (User.id user)
                (Plan.id plan)
                (User.companyId user)
                (Stripe.status stripeSubscription)
                (Stripe.current_period_start stripeSubscription * 1000)
                (Stripe.current_period_end stripeSubscription * 1000)
                (Plan.stripePriceId plan)) ;;
         let subscription := fst created in
         prisma_userActivity_create
           (UserActivityCreate.mk
              (User.id user)
              "SUBSCRIPTION_CREATED"
              ("Created subscription for plan: " ++ Plan.name plan)
              (JObj [("subscriptionId", JStr (Subscription.id subscription));
                     ("planId", JStr (Plan.id plan))])) ;;;
         logger Info "Subscription created" ;;;
         ret (mkResponse 200
                (created_body subscription (snd created)
                   (Stripe.client_secret stripeSubscription)))
     end)
    (fun _ => logger Error "Create subscription error" ;;; ret server_error).

(** POST /api/subscriptions/:id/cancel; [body_cancelAtPeriodEnd] is the
    field of the request body, [None] when it is absent
    ([const { cancelAtPeriodEnd = true } = req.body]). *)
Definition cancel (user : User.t) (id : string)
    (body_cancelAtPeriodEnd : option Json) : M Response :=
  try_catch
    (let cancelAtPeriodEnd :=
       match body_cancelAtPeriodEnd with
       | Some v => v
       | None => JBool true
       end in
     subscription <- prisma_subscription_findFirst id (User.id user) ;;
     match subscription with
     | None => ret (mkResponse 404 (error_body "Subscription not found"))
     | Some subscription =>
         (if truthy cancelAtPeriodEnd
          then stripe_call (fun n => unit_answer
                 (stripe_subscriptions_update E n
                    (Subscription.stripeSubscriptionId subscription) true))
          else stripe_call (fun n => unit_answer
                 (stripe_subscriptions_cancel E n
                    (Subscription.stripeSubscriptionId subscription)))) ;;;
         canceledAt <-
           (if truthy cancelAtPeriodEnd then ret None
            else t <- now ;; ret (Some (Some t))) ;;
         updatedSubscription <-
           prisma_subscription_update (where_id id)
             (SubscriptionUpdate.mk
                (Some (if truthy cancelAtPeriodEnd
                       then SubscriptionStatus.name
                              (Subscription.status subscription)
                       else "CANCELED"))
                None None
                (Some cancelAtPeriodEnd)
                canceledAt
                None None)
             true ;;
         prisma_userActivity_create
           (UserActivityCreate.mk
              (User.id user)
              "SUBSCRIPTION_CANCELED"
              ("Canceled subscription: " ++ Subscription.id subscription)
              (JObj [("subscriptionId", JStr (Subscription.id subscription));
                     ("cancelAtPeriodEnd", cancelAtPeriodEnd)])) ;;;
         logger Info "Subscription canceled" ;;;
         ret (mkResponse 200
                (subscription_body (fst updatedSubscription)
                   (snd updatedSubscription)))
     end)
    (fun _ => logger Error "Cancel subscription error" ;;; ret server_error).

(** POST /api/subscriptions/:id/reactivate *)
Definition reactivate (user : User.t) (id : string) : M Response :=
  try_catch
    (subscription <- prisma_subscription_findFirst id (User.id user) ;;
     match subscription with
     | None => ret (mkResponse 404 (error_body "Subscription not found"))
     | Some subscription =>
         stripe_call (fun n => unit_answer
           (stripe_subscriptions_update E n
              (Subscription.stripeSubscriptionId subscription) false)) ;;;
         updatedSubscription <-
           prisma_subscription_update (where_id id)
             (SubscriptionUpdate.mk
                None None None (Some (JBool false)) (Some None) None None)
             true ;;
         prisma_userActivity_create
           (UserActivityCreate.mk
              (User.id user)
              "SUBSCRIPTION_REACTIVATED"
              ("Reactivated subscription: " ++ Subscription.id subscription)
              (JObj [("subscriptionId",
                      JStr (Subscription.id subscription))])) ;;;
         logger Info "Subscription reactivated" ;;;
         ret (mkResponse 200
                (subscription_body (fst updatedSubscription)
                   (snd updatedSubscription)))
     end)
    (fun _ =>
       logger Error "Reactivate subscription error" ;;; ret server_error).

End Handlers.

(** * Vocabulary of the properties *)

(** The external subscription reference [x] matches no local row. *)
Definition unknown_subscription (d : DB) (x : Expandable) : Prop :=
  forall s, In s (subscriptions d) ->
    x <> Ref (Subscription.stripeSubscriptionId s).

(** No Subscription with internal id [id] belongs to user [uid]: either no
    row has that id, or the rows that have it belong to someone else. *)
Definition not_own (d : DB) (uid id : string) : Prop :=
  forall s, In s (subscriptions d) ->
    Subscription.id s = id -> Subscription.userId s <> uid.

Definition not_found : Response :=
  mkResponse 404 (error_body "Subscription not found").

(** The final tables hold the new Payment row and its activity entry. *)
Definition both_rows (d d' : DB) : Prop :=
  exists p a, d' = add_activity a (add_payment p d).

(** The final tables hold the new Payment row without an activity entry. *)
Definition payment_alone (d d' : DB) : Prop :=
  exists p, d' = add_payment p d.

(** Atomicity of the pair over a run from [d] to [d']: neither row or both. *)
Definition atomic_pair (d d' : DB) : Prop :=
  d' = d \/ both_rows d d'.

(** The payment reference [pid] is new to the Payment table. *)
Definition fresh_payment (d : DB) (pid : string) : Prop :=
  forall p, In p (payments d) -> Payment.stripePaymentId p <> pid.

Definition has_reference (pid : string) (p : Payment.t) : bool :=
  (Payment.stripePaymentId p =? pid)%string.

(** The columns a snapshot never touches. *)
Definition same_identity (a b : Subscription.t) : Prop :=
  Subscription.id a = Subscription.id b /\
  Subscription.stripeSubscriptionId a = Subscription.stripeSubscriptionId b /\
  Subscription.userId a = Subscription.userId b /\
  Subscription.companyId a = Subscription.companyId b /\
  Subscription.planId a = Subscription.planId b /\
  Subscription.priceId a = Subscription.priceId b /\
  Subscription.quantity a = Subscription.quantity b /\
  Subscription.createdAt a = Subscription.createdAt b.

(** The columns a snapshot overwrites, read off the snapshot. *)
Definition mirrors (snapshot : Stripe.Subscription)
    (st : SubscriptionStatus.t) (s : Subscription.t) : Prop :=
  Subscription.status s = st /\
  Subscription.currentPeriodStart s
    = Stripe.current_period_start snapshot * 1000 /\
  Subscription.currentPeriodEnd s
    = Stripe.current_period_end snapshot * 1000 /\
  Subscription.cancelAtPeriodEnd s = Stripe.cancel_at_period_end snapshot /\
  Subscription.canceledAt s = date_of_seconds (Stripe.canceled_at snapshot) /\
  Subscription.trialStart s = date_of_seconds (Stripe.trial_start snapshot) /\
  Subscription.trialEnd s = date_of_seconds (Stripe.trial_end snapshot).

Definition by_reference (r : string) (d : DB) : option Subscription.t :=
  find (matches (where_stripeSubscriptionId r)) (subscriptions d).

Definition by_id (id : string) (d : DB) : option Subscription.t :=
  find (matches (where_id id)) (subscriptions d).

(** The Subscription with internal id [id] is [sub] and belongs to [user]. *)
Definition owns (d : DB) (user : User.t) (id : string) (sub : Subscription.t)
    : Prop :=
  by_id id d = Some sub /\ Subscription.userId sub = User.id user.

(** The columns neither cancel nor reactivate touches. *)
Definition same_terms (a b : Subscription.t) : Prop :=
  same_identity a b /\
  Subscription.currentPeriodStart a = Subscription.currentPeriodStart b /\
  Subscription.currentPeriodEnd a = Subscription.currentPeriodEnd b /\
  Subscription.trialStart a = Subscription.trialStart b /\
  Subscription.trialEnd a = Subscription.trialEnd b.

Definition success (r : Response) (s : Subscription.t) : Prop :=
  exists plan, r = mkResponse 200 (subscription_body s plan).

Definition plan_by_id (id : string) (d : DB) : option Plan.t :=
  find (fun p => (Plan.id p =? id)%string) (plans d).

Definition plan_not_found : Response :=
  mkResponse 404 (error_body "Plan not found").

(** The only trace a failed create can leave: the caller's row linked to a
    processor customer. *)
Definition customer_linked (user : User.t) (d d' : DB) : Prop :=
  exists customerId t,
    users d' = update_first (fun u => (User.id u =? User.id user)%string)
                 (link_customer customerId t) (users d).

(** * A concrete scenario

    The scenario of the specification: user u1 owns the Subscription with
    external reference sub_1; the processor reports payment pi_1 of 2999
    usd. *)

Definition show_nonneg (n : Z) : string :=
  NilZero.string_of_uint (N.to_uint (Z.to_N n)).

Definition show_int (n : Z) : string :=
  if n <? 0 then "-" ++ show_nonneg (- n) else show_nonneg n.

(** [`${n / 100}`] for an integer [n] of ordinary size. *)
Definition show_div100 (n : Z) : string :=
  let a := Z.abs n in
  let r := a mod 100 in
  (if n <? 0 then "-" else "")
    ++ show_nonneg (a / 100)
    ++ (if r =? 0 then ""
        else "." ++ show_nonneg (r / 10)
                 ++ (if r mod 10 =? 0 then "" else show_nonneg (r mod 10))).

Definition upper_ascii (c : Ascii.ascii) : Ascii.ascii :=
  let n := Ascii.nat_of_ascii c in
  if ((97 <=? n) && (n <=? 122))%nat then Ascii.ascii_of_nat (n - 32) else c.

Fixpoint upper (s : string) : string :=
  match s with
  | EmptyString => EmptyString
  | String c r => String (upper_ascii c) (upper r)
  end.

Definition demo_invoice : Stripe.Invoice :=
  Stripe.mkInvoice (Ref "sub_1") (Ref "pi_1") 2999 2999 "usd" None None.

Definition demo_snapshot (status : string) (flag : bool)
    : Stripe.Subscription :=
  Stripe.mkSubscription "sub_1" status 1700000000 1702592000 flag
    None None None None.

(** An environment whose storage fails at the effects selected by [fault],
    whose processor answers [remote] to every subscription update and refuses
    every subscription creation, and whose webhook secret accepts the
    signature "good" for a payment-succeeded event. *)
Definition demo_env (fault : nat -> bool) (remote : bool) : Env :=
  mkEnv fault
    (fun n => 1700000000000 + Z.of_nat n)
    (fun n => "c" ++ show_int (Z.of_nat n))
    (fun _ _ _ _ => Some "cus_1")
    (fun _ _ _ => true)
    (fun _ _ _ => true)
    (fun _ _ _ => None)
    (fun _ _ _ => remote)
    (fun _ _ => remote)
    (fun _ sig _ =>
       match sig with
       | Some "good" => inl (Stripe.invoice_payment_succeeded demo_invoice)
       | _ => inr "No signatures found matching the expected signature"
       end)
    "whsec_demo"
    show_div100 show_int upper.

Definition no_fault : nat -> bool := fun _ => false.

Definition u1 : User.t := User.mk "u1" "u1@example.com" "Ada" "Doe" None None 0.
Definition u2 : User.t := User.mk "u2" "u2@example.com" "Bob" "Roe" None None 0.

Definition pro : Plan.t := Plan.mk "plan_pro" "Pro" "price_pro" 2999 "usd".

Definition demo_subscription (status : SubscriptionStatus.t) (flag : bool)
    (canceledAt : option DateTime) : Subscription.t :=
  Subscription.mk "s1" "sub_1" status "price_pro" 1
    1700000000000 1702592000000 flag canceledAt None None 0 0
    "u1" None "plan_pro".

Definition demo_db (s : Subscription.t) : DB :=
  mkDB [u1; u2] [pro] [s] [] [].

Definition active_world : World :=
  mkWorld (demo_db (demo_subscription SubscriptionStatus.ACTIVE false None))
    0 [].


(** No subscription at all, as before anything was created locally. *)
Definition empty_world : World := mkWorld (mkDB [u1; u2] [pro] [] [] []) 0 [].

(** Storage failing at effect [k] only. *)
Definition fault_at (k : nat) : nat -> bool := fun n => Nat.eqb n k.

(** * Vocabulary of the further properties *)

(** [l'] is [l] with rows appended. *)
Definition extends {A} (l l' : list A) : Prop :=
  exists k, l' = (l ++ k)%list.

(** What a webhook delivery can do to the tables at most: append Payment
    rows and activity entries, rewrite columns of Subscription and User rows
    without adding, removing, re-keying or re-assigning them, and nothing to
    the plans. *)
Definition webhook_frame (d d' : DB) : Prop :=
  extends (payments d) (payments d') /\
  extends (activities d) (activities d') /\
  map Subscription.id (subscriptions d')
    = map Subscription.id (subscriptions d) /\
  map Subscription.stripeSubscriptionId (subscriptions d')
    = map Subscription.stripeSubscriptionId (subscriptions d) /\
  map Subscription.userId (subscriptions d')
    = map Subscription.userId (subscriptions d) /\
  map User.id (users d') = map User.id (users d) /\
  plans d' = plans d.

(** What a lifecycle route can do to the tables at most: append Subscription
    rows and activity entries, rewrite columns of Subscription and User rows,
    and nothing to the payments and the plans. *)
Definition lifecycle_frame (d d' : DB) : Prop :=
  payments d' = payments d /\
  plans d' = plans d /\
  extends (activities d) (activities d') /\
  extends (map Subscription.id (subscriptions d))
    (map Subscription.id (subscriptions d')) /\
  extends (map Subscription.stripeSubscriptionId (subscriptions d))
    (map Subscription.stripeSubscriptionId (subscriptions d')) /\
  extends (map Subscription.userId (subscriptions d))
    (map Subscription.userId (subscriptions d')) /\
  map User.id (users d') = map User.id (users d).

(** The unique indexes on the external references hold. *)
Definition unique_references (d : DB) : Prop :=
  NoDup (map Payment.stripePaymentId (payments d)) /\
  NoDup (map Subscription.stripeSubscriptionId (subscriptions d)).

Definition user_by_id (id : string) (d : DB) : option User.t :=
  find (fun u => (User.id u =? id)%string) (users d).

(** Some other user than [id] already holds the customer reference. *)
Definition customer_taken (id customerId : string) (d : DB) : bool :=
  existsb
    (fun u => negb (User.id u =? id)%string &&
       match User.stripeCustomerId u with
       | Some c => (c =? customerId)%string
       | None => false
       end)
    (users d).

(** The reference under which a payment-failed invoice without a payment
    intent is filed when the handler reads the clock as effect [n]. *)
Definition failed_reference (E : Env) (n : nat) : string :=
  "failed_" ++ js_toString E (clock E n).

(** A processor that accepts everything and answers every subscription
    creation with the subscription sub_2 in the given status; the storage
    works. *)
Definition demo_created (status : string) : Stripe.Subscription :=
  Stripe.mkSubscription "sub_2" status 1700000000 1702592000 false
    None None None (Some "pi_2_secret").

Definition creating_env (status : string) : Env :=
  mkEnv no_fault
    (fun n => 1700000000000 + Z.of_nat n)
    (fun n => "c" ++ show_int (Z.of_nat n))
    (fun _ _ _ _ => Some "cus_1")
    (fun _ _ _ => true)
    (fun _ _ _ => true)
    (fun _ _ _ => Some (demo_created status))
    (fun _ _ _ => true)
    (fun _ _ => true)
    (fun _ _ _ => inr "No signatures found matching the expected signature")
    "whsec_demo"
    show_div100 show_int upper.

(** A user who already has a processor customer. *)
Definition u3 : User.t :=
  User.mk "u3" "u3@example.com" "Cyd" "Poe" (Some "cus_3") None 0.

(** * The authentication middleware and the read routes *)

From Stdlib Require Import Permutation Sorted.

(** [s.replace(pattern, replacement)] for a string [pattern] and a
    [replacement] without [$] patterns: the first occurrence is replaced. *)
Fixpoint replace_first (pattern replacement s : string) : string :=
  if prefix pattern s
  then replacement
         ++ substring (String.length pattern)
              (String.length s - String.length pattern) s
  else
    match s with
    | EmptyString => EmptyString
    | String c r => String c (replace_first pattern replacement r)
    end.

(** [orderBy: { key: 'desc' }]. The order among rows with equal keys is the
    storage's choice; nothing below relies on the one taken here. *)
Fixpoint insert_desc {A} (key : A -> Z) (x : A) (l : list A) : list A :=
  match l with
  | [] => [x]
  | y :: r =>
      if key y <=? key x then x :: y :: r else y :: insert_desc key x r
  end.

Definition order_desc {A} (key : A -> Z) (l : list A) : list A :=
  fold_right (insert_desc key) [] l.

(** A row of the [usage_records] table. No handler modelled here writes the
    table; the usage route reads it. *)
Module UsageRecord.
Record t := mk {
  id : string;
  quantity : Z;
  action : string;
  timestamp : DateTime;
  subscriptionId : string
}.
End UsageRecord.

(** [records.reduce((sum, record) => sum + record.quantity, 0)] *)
Definition sum_quantity (records : list UsageRecord.t) : Z :=
  fold_left (fun sum record => sum + UsageRecord.quantity record) records 0.

(** The bodies of the read routes. *)
Inductive ReadBody :=
| read_error (msg : string)                      (* { error: msg } *)
| subscriptions_data
    (data : list (Subscription.t * option Plan.t * list Payment.t))
| payment_data (payment : Payment.t)
    (subscription : option (Subscription.t * option Plan.t))
| usage_data (subscription : Subscription.t)
    (totalUsage monthlyUsage : Z) (usageRecords : list UsageRecord.t).

Record ReadResponse := mkRead {
  read_status : Z;
  read_body : ReadBody
}.

Definition no_token : Response :=
  mkResponse 401 (error_body "No token, authorization denied").

Definition invalid_token : Response :=
  mkResponse 401 (error_body "Token is not valid").

Section Middleware.

Variable E : Env.

(** [jwt.verify(token, secret)]: [None] when it throws, otherwise the
    [userId] of the payload, if the payload has one. *)
Variable jwt_verify : string -> option (option string).

(** [prisma.user.findUnique({ where: { id }, include })]; the included
    company and subscriptions are not read by the routes modelled here. *)
Definition prisma_user_findUnique (id : option string) : M (option User.t) :=
  match id with
  | Some i =>
      storage E (fun _ d =>
        (Ok (find (fun u => (User.id u =? i)%string) (users d)), d))
  | None => throw PrismaValidationError
  end.

(** middleware/auth.ts, [auth]: the denial it sends, or the user it puts on
    the request before calling [next]. [authorization] is the header,
    [cookies] is [req.cookies] with its [token] ([None] when no cookie
    parser ran). Where [jwt.verify] or the read of [req.cookies.token]
    throws, the answer of the [catch] is given directly. *)
Definition auth (authorization : option string)
    (cookies : option (option string)) : M (Response + User.t) :=
  try_catch
    (let bearer := option_map (replace_first "Bearer " "") authorization in
     match (if truthy_str bearer then Some bearer else cookies) with
     | None => ret (inl invalid_token)
     | Some token =>
         if truthy_str token then
           match jwt_verify (or_else token "") with
           | None => ret (inl invalid_token)
           | Some userId =>
               user <- prisma_user_findUnique userId ;;
               match user with
               | None => ret (inl invalid_token)
               | Some user => ret (inr user)
               end
           end
         else ret (inl no_token)
     end)
    (fun _ => ret (inl invalid_token)).

(** A route mounted behind [auth]. *)
Definition protected (route : User.t -> M Response)
    (authorization : option string) (cookies : option (option string))
    : M Response :=
  a <- auth authorization cookies ;;
  match a with
  | inl denial => ret denial
  | inr user => route user
  end.

Definition read_server_error : ReadResponse :=
  mkRead 500 (read_error "Server error").



Definition join_subscription (d : DB) (p : Payment.t)
    : option (Subscription.t * option Plan.t) :=
  match Payment.subscriptionId p with
  | Some i =>
      option_map (fun s => (s, join_plan true d s))
        (find (matches (where_id i)) (subscriptions d))
  | None => None
  end.

Definition own_payment (id userId : string) (p : Payment.t) : bool :=
  (Payment.id p =? id)%string && (Payment.userId p =? userId)%string.

(** GET /api/payments/:id *)
Definition payment_detail (user : User.t) (id : string) : M ReadResponse :=
  try_catch
    (payment <-
       storage E (fun _ d =>
         (Ok (option_map (fun p => (p, join_subscription d p))
                (find (own_payment id (User.id user)) (payments d))),
          d)) ;;
     match payment with
     | None => ret (mkRead 404 (read_error "Payment not found"))
     | Some (p, s) => ret (mkRead 200 (payment_data p s))
     end)
    (fun _ => logger Error "Get payment error" ;;; ret read_server_error).

(** The start of the current month in local time:
    [d.setDate(1); d.setHours(0, 0, 0, 0)]. *)
Variable start_of_month : DateTime -> DateTime.

(** The [usage_records] table. *)
Variable usage_records : list UsageRecord.t.

(** [include: { usageRecords: { orderBy: { timestamp: 'desc' },
    take: 100 } }] *)
Definition recent_usage (s : Subscription.t) : list UsageRecord.t :=
  firstn 100
    (order_desc UsageRecord.timestamp
       (filter
          (fun r => (UsageRecord.subscriptionId r =? Subscription.id s)%string)
          usage_records)).

(** GET /api/subscriptions/:id/usage *)
Definition usage (user : User.t) (id : string) : M ReadResponse :=
  try_catch
    (subscription <-
       storage E (fun _ d =>
         (Ok (option_map (fun s => (s, recent_usage s))
                (find (matches (where_id_userId id (User.id user)))
                   (subscriptions d))),
          d)) ;;
     match subscription with
     | None => ret (mkRead 404 (read_error "Subscription not found"))
     | Some (subscription, usageRecords) =>
         let totalUsage := sum_quantity usageRecords in
         t <- now E ;;
         let currentMonth := start_of_month t in
         let monthlyUsage :=
           sum_quantity
             (filter
                (fun record => currentMonth <=? UsageRecord.timestamp record)
                usageRecords) in
         ret (mkRead 200
                (usage_data subscription totalUsage monthlyUsage usageRecords))
     end)
    (fun _ => logger Error "Get usage error" ;;; ret read_server_error).

End Middleware.

(** The token a request presents, if any: the Authorization header with its
    first "Bearer " removed, or else the token cookie. *)
Definition presented_token (authorization : option string)
    (cookies : option (option string)) : option string :=
  let bearer := option_map (replace_first "Bearer " "") authorization in
  match (if truthy_str bearer then Some bearer else cookies) with
  | Some token => if truthy_str token then Some (or_else token "") else None
  | None => None
  end.

(** A verifier that knows one token, of user u1. *)
Definition demo_jwt (token : string) : option (option string) :=
  if (token =? "token_of_u1")%string then Some (Some "u1") else None.

(** Newest first. *)
Definition newer_first {A} (key : A -> Z) (a b : A) : Prop := key b <= key a.


Definition usage_of (s : Subscription.t) (r : UsageRecord.t) : bool :=
  (UsageRecord.subscriptionId r =? Subscription.id s)%string.

Definition payment_not_found : ReadResponse :=
  mkRead 404 (read_error "Payment not found").

(** A usage table: two records of s1, one of another subscription. *)
Definition demo_usage : list UsageRecord.t :=
  [UsageRecord.mk "r1" 5 "api_call" 1699000000000 "s1";
   UsageRecord.mk "r2" 7 "api_call" 1700500000000 "s1";
   UsageRecord.mk "r3" 11 "api_call" 1700600000000 "s9"].

(** The number of the effect with which a run of the payment-succeeded
    handler started at effect [n] writes the activity entry: the lookup is
    effect [n], the Payment insert the next, the activity insert the one
    after. *)
Definition succeeded_activity_effect (n : nat) : nat := S (S n).

(** The same for the payment-failed handler, which reads the clock between
    the lookup and the Payment insert when the invoice carries no payment
    intent. *)
Definition failed_activity_effect (invoice : Stripe.Invoice) (n : nat) : nat :=
  if truthy_exp (Stripe.payment_intent invoice) then S (S n) else S (S (S n)).

(** The values of [Stripe.Subscription.Status], the type of
    [subscription.status] in the processor's SDK. *)
Definition processor_statuses : list string :=
  ["active"; "canceled"; "incomplete"; "incomplete_expired";
   "past_due"; "paused"; "trialing"; "unpaid"].

(** The scenario with u3, who has a processor customer, among the users. *)
Definition customer_world : World :=
  mkWorld
    (mkDB [u1; u2; u3] [pro]
       [demo_subscription SubscriptionStatus.ACTIVE false None] [] [])
    0 [].

(** * Properties *)

Ltac run :=
  unfold try_catch, bind, ret, throw, logger, storage, stripe_call, now, next;
  simpl.

(** Case analysis on a test or scrutinee that is itself free of tests. *)
Ltac branch :=
  match goal with
  | |- context [if existsb ?f ?l then _ else _] =>
      destruct (existsb f l) eqn:?; simpl
  | |- context [if ?c then _ else _] =>
      lazymatch c with
      | context [if _ then _ else _] => fail
      | context [match _ with _ => _ end] => fail
      | _ => destruct c eqn:?; simpl
      end
  | |- context [match ?x with _ => _ end] =>
      lazymatch x with
      | context [if _ then _ else _] => fail
      | context [match _ with _ => _ end] => fail
      | _ => destruct x eqn:?; simpl
      end
  end.

(** ** Generic facts about tables and about [try]/[catch] *)

Lemma find_absent {A} (p : A -> bool) (l : list A) :
  (forall x, In x l -> p x = false) -> find p l = None.
Proof.
  induction l as [|x r IH]; intros H; simpl.
  - reflexivity.
  - rewrite (H x (or_introl eq_refl)). apply IH.
    intros y Hy. apply H. now right.
Qed.

Lemma find_update_first {A} (p : A -> bool) (f : A -> A) (l : list A) x :
  find p l = Some x -> p (f x) = true ->
  find p (update_first p f l) = Some (f x).
Proof.
  induction l as [|y r IH]; simpl; intros Hf Hp.
  - discriminate.
  - destruct (p y) eqn:Hy.
    + injection Hf as ->. simpl. now rewrite Hp.
    + simpl. rewrite Hy. now apply IH.
Qed.

Lemma filter_absent {A} (p : A -> bool) (l : list A) :
  (forall x, In x l -> p x = false) -> filter p l = [].
Proof.
  induction l as [|x r IH]; intros H; simpl.
  - reflexivity.
  - rewrite (H x (or_introl eq_refl)). apply IH.
    intros y Hy. apply H. now right.
Qed.

Lemma existsb_absent {A} (p : A -> bool) (l : list A) :
  (forall x, In x l -> p x = false) -> existsb p l = false.
Proof.
  induction l as [|x r IH]; intros H; simpl.
  - reflexivity.
  - rewrite (H x (or_introl eq_refl)). apply IH.
    intros y Hy. apply H. now right.
Qed.

(** A handler whose whole body sits in a [try] with a logging [catch]
    completes normally, whatever the body does. *)
Lemma swallowed (m : M unit) (l : Level) (msg : string) (w : World) :
  fst (try_catch m (fun _ => logger l msg) w) = Ok tt.
Proof.
  unfold try_catch, logger.
  destruct (m w) as [[[]|e] w']; reflexivity.
Qed.

Lemma swallowed_run (m : M unit) (l : Level) (msg : string) (w : World) :
  exists w', try_catch m (fun _ => logger l msg) w = (Ok tt, w').
Proof.
  exists (snd (try_catch m (fun _ => logger l msg) w)).
  rewrite <- (swallowed m l msg w). apply surjective_pairing.
Qed.

Lemma demo_no_fault remote n : db_fault (demo_env no_fault remote) n = false.
Proof. reflexivity. Qed.

(** ** The scenario, evaluated *)

Example show_div100_2999 : show_div100 2999 = "29.99".
Proof. reflexivity. Qed.

Example scenario_first_delivery :
  let w1 := snd (handlePaymentSucceeded (demo_env no_fault true)
                   demo_invoice active_world) in
  map Payment.stripePaymentId (payments (db w1)) = ["pi_1"] /\
  map Payment.amount (payments (db w1)) = [2999] /\
  map Payment.status (payments (db w1)) = [PaymentStatus.SUCCEEDED] /\
  map UserActivity.userId (activities (db w1)) = ["u1"] /\
  map UserActivity.action (activities (db w1)) = ["PAYMENT_SUCCEEDED"] /\
  map UserActivity.description (activities (db w1))
    = [Some "Payment succeeded for amount: 29.99 USD"].
Proof. vm_compute. repeat split. Qed.

(** A status outside the schema's enum is refused by the storage client; the
    handler swallows the error and the row keeps its status. *)
Example snapshot_status_outside_enum :
  let w1 := snd (handleSubscriptionUpdate (demo_env no_fault true)
                   (demo_snapshot "paused" false) active_world) in
  db w1 = db active_world /\
  log w1 = [(Error, "Error updating subscription")].
Proof. vm_compute. split; reflexivity. Qed.

(** Immediate cancellation sets the status and stamps canceled-at with the
    clock read after the processor call. *)
Example cancel_immediately :
  let w1 := snd (cancel (demo_env no_fault true) u1 "s1" (Some (JBool false))
                   active_world) in
  map Subscription.status (subscriptions (db w1))
    = [SubscriptionStatus.CANCELED] /\
  map Subscription.cancelAtPeriodEnd (subscriptions (db w1)) = [false] /\
  map Subscription.canceledAt (subscriptions (db w1))
    = [Some 1700000000002] /\
  map UserActivity.action (activities (db w1)) = ["SUBSCRIPTION_CANCELED"].
Proof. vm_compute. repeat split. Qed.

(** A payment-failed event without a payment intent is filed under a
    reference made from the clock. *)
Example failed_without_intent :
  let invoice := Stripe.mkInvoice (Ref "sub_1") Null 0 2999 "usd" None None in
  let w1 := snd (handlePaymentFailed (demo_env no_fault true) invoice
                   active_world) in
  map Payment.stripePaymentId (payments (db w1)) = ["failed_1700000000001"] /\
  map Payment.status (payments (db w1)) = [PaymentStatus.FAILED] /\
  map UserActivity.description (activities (db w1))
    = [Some "Payment failed for amount: 29.99 USD"].
Proof. vm_compute. repeat split. Qed.

(** ** Unknown external references *)

Lemma unknown_subscription_find d r :
  unknown_subscription d (Ref r) ->
  find (matches (where_stripeSubscriptionId r)) (subscriptions d) = None.
Proof.
  intros H. apply find_absent. intros s Hs. simpl.
  apply String.eqb_neq. intros Heq. apply (H s Hs). now rewrite Heq.
Qed.

(** C8. A snapshot whose external subscription reference matches no local
    Subscription leaves every table as it was: no row is created or
    modified. *)
Theorem snapshot_unknown_subscription_noop
    E (snapshot : Stripe.Subscription) w :
  unknown_subscription (db w) (Ref (Stripe.id snapshot)) ->
  db (snd (handleSubscriptionUpdate E snapshot w)) = db w.
Proof.
  intros H. apply unknown_subscription_find in H.
  unfold handleSubscriptionUpdate, prisma_subscription_findUnique. run.
  destruct (db_fault E (tick w)); simpl; [reflexivity|].
  rewrite H. reflexivity.
Qed.

Lemma snapshot_unknown_subscription_noop_witness :
  db (snd (handleSubscriptionUpdate (demo_env no_fault true)
             (demo_snapshot "ACTIVE" false) empty_world))
    = db empty_world.
Proof.
  apply snapshot_unknown_subscription_noop. intros s [].
Defined.

(** C7. A payment outcome (succeeded or failed) whose external subscription
    reference matches no local Subscription writes nothing and completes
    without an uncaught error. *)
Theorem payment_unknown_subscription_noop E (invoice : Stripe.Invoice) w :
  unknown_subscription (db w) (Stripe.subscription invoice) ->
  (fst (handlePaymentSucceeded E invoice w) = Ok tt /\
   db (snd (handlePaymentSucceeded E invoice w)) = db w) /\
  (fst (handlePaymentFailed E invoice w) = Ok tt /\
   db (snd (handlePaymentFailed E invoice w)) = db w).
Proof.
  intros H. split; (split; [apply swallowed|]).
  - unfold handlePaymentSucceeded, prisma_subscription_findUnique.
    destruct (Stripe.subscription invoice) as [|r|o]; run; try reflexivity.
    destruct (nonempty r); run; [|reflexivity].
    destruct (db_fault E (tick w)); simpl; [reflexivity|].
    rewrite (unknown_subscription_find _ _ H). reflexivity.
  - unfold handlePaymentFailed, prisma_subscription_findUnique.
    destruct (Stripe.subscription invoice) as [|r|o]; run; try reflexivity.
    destruct (nonempty r); run; [|reflexivity].
    destruct (db_fault E (tick w)); simpl; [reflexivity|].
    rewrite (unknown_subscription_find _ _ H). reflexivity.
Qed.

Lemma payment_unknown_subscription_noop_witness :
  let E := demo_env (fault_at 7) true in
  db (snd (handlePaymentSucceeded E demo_invoice empty_world))
    = db empty_world /\
  db (snd (handlePaymentFailed E demo_invoice empty_world))
    = db empty_world.
Proof.
  intros E.
  destruct (payment_unknown_subscription_noop E demo_invoice empty_world
              (fun s (H : In s []) => match H with end))
    as ((_ & Hs) & (_ & Hf)).
  split; [exact Hs | exact Hf].
Defined.

(** ** Acknowledgement of verified deliveries *)

(** Each per-event handler completes normally in every world. *)
Lemma handlers_complete E :
  (forall o w, exists w', handleSubscriptionUpdate E o w = (Ok tt, w')) /\
  (forall o w, exists w', handleSubscriptionDeleted E o w = (Ok tt, w')) /\
  (forall o w, exists w', handlePaymentSucceeded E o w = (Ok tt, w')) /\
  (forall o w, exists w', handlePaymentFailed E o w = (Ok tt, w')) /\
  (forall o w, exists w', handleCustomerCreated E o w = (Ok tt, w')).
Proof.
  repeat split; intros o w; apply swallowed_run.
Qed.

(** C10. A delivery whose signature verifies is answered 200
    [{ received: true }], whatever the event and whether the storage calls of
    its handler succeed or fail: each handler catches its own errors. *)
Theorem webhook_acknowledges E (body : string) (sig : option string) w event :
  constructEvent E body sig (endpointSecret E) = inl event ->
  fst (webhook E body sig w) = Ok (mkResponse 200 received_body).
Proof.
  intros H. unfold webhook. rewrite H.
  destruct (handlers_complete E) as (Hu & Hd & Hs & Hf & Hc).
  unfold try_catch at 1. unfold bind at 1.
  destruct event as [o|o|o|o|o|o|type].
  - destruct (Hu o w) as [w' ->]. reflexivity.
  - destruct (Hu o w) as [w' ->]. reflexivity.
  - destruct (Hd o w) as [w' ->]. reflexivity.
  - destruct (Hs o w) as [w' ->]. reflexivity.
  - destruct (Hf o w) as [w' ->]. reflexivity.
  - destruct (Hc o w) as [w' ->]. reflexivity.
  - reflexivity.
Qed.

Lemma webhook_acknowledges_witness :
  fst (webhook (demo_env (fault_at 1) true) "{}" (Some "good") active_world)
    = Ok (mkResponse 200 received_body).
Proof.
  exact (webhook_acknowledges (demo_env (fault_at 1) true) "{}" (Some "good")
           active_world (Stripe.invoice_payment_succeeded demo_invoice)
           eq_refl).
Defined.

(** ** Ownership of the looked-up subscription *)

Lemma not_own_find d uid id :
  not_own d uid id ->
  find (matches (where_id_userId id uid)) (subscriptions d) = None.
Proof.
  intros H. apply find_absent. intros s Hs. simpl.
  destruct (String.eqb_spec (Subscription.id s) id) as [Hid|]; [|reflexivity].
  destruct (String.eqb_spec (Subscription.userId s) uid) as [Hu|];
    [|reflexivity].
  exfalso. exact (H s Hs Hid Hu).
Qed.

Lemma cancel_not_own E user id body w :
  not_own (db w) (User.id user) id ->
  fst (cancel E user id body w)
    = Ok (if db_fault E (tick w) then server_error else not_found) /\
  db (snd (cancel E user id body w)) = db w.
Proof.
  intros H. apply not_own_find in H.
  unfold cancel, prisma_subscription_findFirst. run.
  destruct (db_fault E (tick w)); simpl.
  - split; reflexivity.
  - rewrite H. split; reflexivity.
Qed.

Lemma reactivate_not_own E user id w :
  not_own (db w) (User.id user) id ->
  fst (reactivate E user id w)
    = Ok (if db_fault E (tick w) then server_error else not_found) /\
  db (snd (reactivate E user id w)) = db w.
Proof.
  intros H. apply not_own_find in H.
  unfold reactivate, prisma_subscription_findFirst. run.
  destruct (db_fault E (tick w)); simpl.
  - split; reflexivity.
  - rewrite H. split; reflexivity.
Qed.

(** C9. Cancel and reactivate look the Subscription up by internal id and
    owner. Take two worlds in neither of which the caller owns a Subscription
    with the requested id (in one the id may belong to another user, in the
    other it may not exist at all), run under the same environment: the
    responses coincide; they are 404 "Subscription not found" when the
    lookup itself succeeds, and nothing is written. *)
Theorem foreign_subscription_not_found
    E user id (body : option Json) (w1 w2 : World) :
  tick w1 = tick w2 ->
  not_own (db w1) (User.id user) id ->
  not_own (db w2) (User.id user) id ->
  (fst (cancel E user id body w1) = fst (cancel E user id body w2) /\
   fst (reactivate E user id w1) = fst (reactivate E user id w2)) /\
  (db_fault E (tick w1) = false ->
   fst (cancel E user id body w1) = Ok not_found /\
   fst (reactivate E user id w1) = Ok not_found) /\
  (db (snd (cancel E user id body w1)) = db w1 /\
   db (snd (reactivate E user id w1)) = db w1).
Proof.
  intros Ht H1 H2.
  destruct (cancel_not_own E user id body w1 H1) as [Hc1 Hd1].
  destruct (cancel_not_own E user id body w2 H2) as [Hc2 _].
  destruct (reactivate_not_own E user id w1 H1) as [Hr1 He1].
  destruct (reactivate_not_own E user id w2 H2) as [Hr2 _].
  split; [|split].
  - rewrite Hc1, Hc2, Hr1, Hr2, Ht. split; reflexivity.
  - intros Hf. rewrite Hc1, Hr1, Hf. split; reflexivity.
  - split; assumption.
Qed.

(** The same request by u2 for the subscription of u1, once where it exists
    and once where it does not. *)
Lemma foreign_subscription_not_found_witness :
  let E := demo_env no_fault true in
  fst (cancel E u2 "s1" None active_world)
    = fst (cancel E u2 "s1" None empty_world) /\
  fst (reactivate E u2 "s1" active_world)
    = fst (reactivate E u2 "s1" empty_world) /\
  fst (cancel E u2 "s1" None active_world) = Ok not_found.
Proof.
  intros E.
  assert (H1 : not_own (db active_world) (User.id u2) "s1").
  { intros s [<- | []] _. discriminate. }
  destruct (foreign_subscription_not_found E u2 "s1" None
              active_world empty_world eq_refl H1
              (fun s (H : In s []) => match H with end))
    as ((Hc & Hr) & Hn & _).
  split; [exact Hc|]. split; [exact Hr|]. exact (proj1 (Hn eq_refl)).
Defined.

(** ** Payment rows and their activity entries *)

(** The outcomes of the two handlers, with the fate of the storage call that
    writes the activity entry. *)
Lemma payment_succeeded_outcomes E invoice w :
  let d' := db (snd (handlePaymentSucceeded E invoice w)) in
  let act := succeeded_activity_effect (tick w) in
  d' = db w \/
  (both_rows (db w) d' /\ db_fault E act = false) \/
  (payment_alone (db w) d' /\ db_fault E act = true).
Proof.
  unfold handlePaymentSucceeded, prisma_subscription_findUnique,
    prisma_payment_create, prisma_userActivity_create,
    both_rows, payment_alone, succeeded_activity_effect.
  run. repeat branch; eauto 7.
Qed.

Lemma payment_failed_outcomes E invoice w :
  let d' := db (snd (handlePaymentFailed E invoice w)) in
  let act := failed_activity_effect invoice (tick w) in
  d' = db w \/
  (both_rows (db w) d' /\ db_fault E act = false) \/
  (payment_alone (db w) d' /\ db_fault E act = true).
Proof.
  unfold handlePaymentFailed, prisma_subscription_findUnique,
    prisma_payment_create, prisma_userActivity_create,
    both_rows, payment_alone, failed_activity_effect.
  destruct (truthy_exp (Stripe.payment_intent invoice)) eqn:Hpi;
    run; repeat branch; eauto 7.
Qed.

(** C2 (amended). The Payment row and its activity entry are written by two
    separate storage calls, the Payment row first. A run of a payment handler
    therefore ends with neither row, or with both rows, the storage call
    that writes the activity entry having succeeded, or with the Payment row
    alone, and then exactly because that storage call failed; an activity
    entry never persists without its Payment row. *)
Theorem payment_before_activity E (invoice : Stripe.Invoice) w :
  (let d' := db (snd (handlePaymentSucceeded E invoice w)) in
   let act := succeeded_activity_effect (tick w) in
   d' = db w \/
   (both_rows (db w) d' /\ db_fault E act = false) \/
   (payment_alone (db w) d' /\ db_fault E act = true)) /\
  (let d' := db (snd (handlePaymentFailed E invoice w)) in
   let act := failed_activity_effect invoice (tick w) in
   d' = db w \/
   (both_rows (db w) d' /\ db_fault E act = false) \/
   (payment_alone (db w) d' /\ db_fault E act = true)).
Proof.
  split.
  - apply payment_succeeded_outcomes.
  - apply payment_failed_outcomes.
Qed.

(** C2, as claimed, fails: when the storage call that writes the activity
    entry fails, the Payment row stays without its activity entry. *)
Lemma payment_row_without_activity :
  let d' := db (snd (handlePaymentSucceeded (demo_env (fault_at 2) true)
                       demo_invoice active_world)) in
  map Payment.stripePaymentId (payments d') = ["pi_1"] /\
  activities d' = [] /\
  ~ atomic_pair (db active_world) d'.
Proof.
  cbv zeta. split; [reflexivity|]. split; [reflexivity|].
  intros [H | (p & a & H)].
  - apply (f_equal payments) in H. vm_compute in H. discriminate.
  - apply (f_equal activities) in H. vm_compute in H. discriminate.
Qed.

Lemma fresh_payment_existsb d pid :
  fresh_payment d pid -> existsb (has_reference pid) (payments d) = false.
Proof.
  intros H. apply existsb_absent. intros p Hp. apply String.eqb_neq.
  exact (H p Hp).
Qed.

(** A first delivery for a known subscription, with storage working, writes
    the two rows. *)
Lemma payment_succeeded_first
    E (invoice : Stripe.Invoice) w (r pid : string) (sub : Subscription.t) :
  (forall n, db_fault E n = false) ->
  Stripe.subscription invoice = Ref r ->
  nonempty r = true ->
  find (matches (where_stripeSubscriptionId r)) (subscriptions (db w))
    = Some sub ->
  Stripe.payment_intent invoice = Ref pid ->
  int32 (Stripe.amount_paid invoice) = true ->
  fresh_payment (db w) pid ->
  exists p a,
    (Payment.stripePaymentId p = pid /\
     Payment.amount p = Stripe.amount_paid invoice /\
     Payment.status p = PaymentStatus.SUCCEEDED /\
     Payment.userId p = Subscription.userId sub /\
     Payment.subscriptionId p = Some (Subscription.id sub)) /\
    (UserActivity.action a = "PAYMENT_SUCCEEDED" /\
     UserActivity.userId a = Subscription.userId sub /\
     UserActivity.metadata a
       = Some (payment_metadata (Ref pid) (Stripe.amount_paid invoice)
                 (Stripe.currency invoice))) /\
    db (snd (handlePaymentSucceeded E invoice w))
      = add_activity a (add_payment p (db w)).
Proof.
  intros Hf Hs Hr Hsub Hpi Hamt Hfresh.
  apply fresh_payment_existsb in Hfresh. unfold has_reference in Hfresh.
  unfold handlePaymentSucceeded, prisma_subscription_findUnique,
    prisma_payment_create, prisma_userActivity_create.
  rewrite Hs, Hpi. cbn [truthy_exp]. rewrite Hr. run.
  rewrite Hamt, !Hf. simpl. rewrite Hsub. simpl.
  rewrite !Hf, Hfresh. simpl. rewrite !Hf. simpl.
  do 2 eexists. split; [|split]; [| |reflexivity]; repeat split.
Qed.

(** A delivery whose payment reference is already on file writes nothing:
    the insert is refused by the unique index and the handler swallows the
    error. *)
Lemma payment_succeeded_duplicate E (invoice : Stripe.Invoice) w pid :
  Stripe.payment_intent invoice = Ref pid ->
  existsb (has_reference pid) (payments (db w)) = true ->
  db (snd (handlePaymentSucceeded E invoice w)) = db w.
Proof.
  intros Hpi Hex. unfold has_reference in Hex.
  unfold handlePaymentSucceeded, prisma_subscription_findUnique,
    prisma_payment_create, prisma_userActivity_create.
  rewrite Hpi. run.
  repeat branch; try reflexivity; congruence.
Qed.

(** C1. Two deliveries of a payment-succeeded event with the same payment
    reference, for a known subscription and with the storage calls
    succeeding: the first creates one Payment row and one activity entry,
    the second creates nothing, so the tables end with exactly one Payment
    row for the reference and its one activity entry. *)
Theorem payment_succeeded_redelivery
    E (invoice : Stripe.Invoice) w (r pid : string) (sub : Subscription.t) :
  (forall n, db_fault E n = false) ->
  Stripe.subscription invoice = Ref r ->
  nonempty r = true ->
  find (matches (where_stripeSubscriptionId r)) (subscriptions (db w))
    = Some sub ->
  Stripe.payment_intent invoice = Ref pid ->
  int32 (Stripe.amount_paid invoice) = true ->
  fresh_payment (db w) pid ->
  let w1 := snd (handlePaymentSucceeded E invoice w) in
  let w2 := snd (handlePaymentSucceeded E invoice w1) in
  exists p a,
    (Payment.stripePaymentId p = pid /\
     Payment.amount p = Stripe.amount_paid invoice /\
     Payment.status p = PaymentStatus.SUCCEEDED /\
     Payment.userId p = Subscription.userId sub /\
     Payment.subscriptionId p = Some (Subscription.id sub)) /\
    (UserActivity.action a = "PAYMENT_SUCCEEDED" /\
     UserActivity.userId a = Subscription.userId sub /\
     UserActivity.metadata a
       = Some (payment_metadata (Ref pid) (Stripe.amount_paid invoice)
                 (Stripe.currency invoice))) /\
    db w1 = add_activity a (add_payment p (db w)) /\
    db w2 = db w1 /\
    filter (has_reference pid) (payments (db w2)) = [p] /\
    activities (db w2) = (activities (db w) ++ [a])%list.
Proof.
  intros Hf Hs Hr Hsub Hpi Hamt Hfresh w1 w2.
  destruct (payment_succeeded_first E invoice w r pid sub
              Hf Hs Hr Hsub Hpi Hamt Hfresh) as (p & a & Hp & Ha & H1).
  fold w1 in H1.
  assert (Hself : has_reference pid p = true).
  { unfold has_reference. destruct Hp as [-> _]. apply String.eqb_refl. }
  assert (H2 : db w2 = db w1).
  { apply (payment_succeeded_duplicate E invoice w1 pid Hpi).
    rewrite H1. simpl. rewrite existsb_app. simpl.
    rewrite Hself. apply orb_true_r. }
  exists p, a. repeat split; try apply Hp; try apply Ha; auto.
  - rewrite H2, H1. simpl. rewrite filter_app. simpl. rewrite Hself.
    rewrite filter_absent; [reflexivity|].
    intros q Hq. apply String.eqb_neq. exact (Hfresh q Hq).
  - rewrite H2, H1. reflexivity.
Qed.

Lemma payment_succeeded_redelivery_witness :
  let E := demo_env no_fault true in
  let w1 := snd (handlePaymentSucceeded E demo_invoice active_world) in
  let w2 := snd (handlePaymentSucceeded E demo_invoice w1) in
  db w2 = db w1 /\
  List.length (filter (has_reference "pi_1") (payments (db w2))) = 1%nat /\
  List.length (activities (db w2)) = 1%nat.
Proof.
  intros E w1 w2.
  destruct (payment_succeeded_redelivery E demo_invoice active_world
              "sub_1" "pi_1"
              (demo_subscription SubscriptionStatus.ACTIVE false None)
              (demo_no_fault true) eq_refl eq_refl eq_refl eq_refl eq_refl
              (fun q (H : In q []) => match H with end))
    as (p & a & _ & _ & _ & H2 & Hp & Ha).
  fold w1 w2 in H2, Hp, Ha. rewrite Hp, Ha.
  split; [exact H2|]. split; reflexivity.
Defined.

(** ** Snapshots *)

Lemma matches_patch wh u c t s :
  matches wh (SubscriptionUpdate.patch u c t s) = matches wh s.
Proof. destruct wh; reflexivity. Qed.

Lemma find_patched wh u c t l s :
  find (matches wh) l = Some s ->
  find (matches wh)
    (update_first (matches wh) (SubscriptionUpdate.patch u c t) l)
    = Some (SubscriptionUpdate.patch u c t s).
Proof.
  intros H. apply find_update_first; [exact H|].
  rewrite matches_patch. exact (proj2 (find_some _ _ H)).
Qed.

(** A snapshot for a known subscription never loses the row, whatever the
    storage and the snapshot's status do. *)
Lemma snapshot_keeps_row E (snapshot : Stripe.Subscription) w sub :
  by_reference (Stripe.id snapshot) (db w) = Some sub ->
  exists sub',
    by_reference (Stripe.id snapshot)
      (db (snd (handleSubscriptionUpdate E snapshot w))) = Some sub' /\
    same_identity sub' sub.
Proof.
  unfold by_reference. intros H.
  unfold handleSubscriptionUpdate, prisma_subscription_findUnique,
    prisma_subscription_update, SubscriptionUpdate.check.
  run.
  destruct (db_fault E (tick w)); simpl.
  { exists sub. repeat split; auto. }
  rewrite H. simpl.
  destruct (SubscriptionStatus.parse (Stripe.status snapshot)); simpl.
  2: { exists sub. repeat split; auto. }
  destruct (db_fault E (S (tick w))); simpl.
  { exists sub. repeat split; auto. }
  rewrite H. simpl.
  eexists. split; [apply find_patched; exact H|].
  repeat split.
Qed.

(** A snapshot with a status of the schema, for a known subscription and
    with storage working, overwrites the mirrored columns. *)
Lemma snapshot_applies E (snapshot : Stripe.Subscription) w sub st :
  (forall n, db_fault E n = false) ->
  by_reference (Stripe.id snapshot) (db w) = Some sub ->
  SubscriptionStatus.parse (Stripe.status snapshot) = Some st ->
  exists sub',
    by_reference (Stripe.id snapshot)
      (db (snd (handleSubscriptionUpdate E snapshot w))) = Some sub' /\
    mirrors snapshot st sub' /\
    same_identity sub' sub.
Proof.
  unfold by_reference. intros Hf H Hst.
  unfold handleSubscriptionUpdate, prisma_subscription_findUnique,
    prisma_subscription_update, SubscriptionUpdate.check.
  run. rewrite !Hf. simpl. rewrite H. simpl. rewrite Hst. simpl.
  rewrite !Hf. simpl. rewrite H. simpl.
  eexists. split; [apply find_patched; exact H|].
  repeat split.
Qed.

(** When the last of two snapshots for the same external reference of an
    existing Subscription carries its status in the spelling of the schema's
    enum, and storage works, the row ends with that status and with the
    snapshot's period bounds and cancel flag, and with canceled-at and trial
    bounds as [date_of_seconds] converts them, whatever the first snapshot
    wrote. *)
Theorem snapshot_last_write_wins
    E (first last : Stripe.Subscription) w sub st :
  (forall n, db_fault E n = false) ->
  Stripe.id last = Stripe.id first ->
  by_reference (Stripe.id first) (db w) = Some sub ->
  SubscriptionStatus.parse (Stripe.status last) = Some st ->
  let w1 := snd (handleSubscriptionUpdate E first w) in
  let w2 := snd (handleSubscriptionUpdate E last w1) in
  exists sub',
    by_reference (Stripe.id first) (db w2) = Some sub' /\
    mirrors last st sub' /\
    same_identity sub' sub.
Proof.
  intros Hf Hid Hsub Hst w1 w2.
  destruct (snapshot_keeps_row E first w sub Hsub) as (s1 & H1 & I1).
  fold w1 in H1. rewrite <- Hid in H1.
  destruct (snapshot_applies E last w1 s1 st Hf H1 Hst) as (s2 & H2 & M2 & I2).
  fold w2 in H2. rewrite Hid in H2.
  exists s2. repeat split; try apply M2.
  all: unfold same_identity in *; intuition congruence.
Qed.

Lemma snapshot_last_write_wins_witness :
  let E := demo_env no_fault true in
  let w1 := snd (handleSubscriptionUpdate E (demo_snapshot "PAST_DUE" true)
                   active_world) in
  let w2 := snd (handleSubscriptionUpdate E (demo_snapshot "TRIALING" false)
                   w1) in
  exists sub',
    by_reference "sub_1" (db w2) = Some sub' /\
    Subscription.status sub' = SubscriptionStatus.TRIALING.
Proof.
  intros E w1 w2.
  destruct (snapshot_last_write_wins E
              (demo_snapshot "PAST_DUE" true) (demo_snapshot "TRIALING" false)
              active_world
              (demo_subscription SubscriptionStatus.ACTIVE false None)
              SubscriptionStatus.TRIALING
              (demo_no_fault true) eq_refl eq_refl eq_refl)
    as (sub' & H & M & _).
  exists sub'. split; [exact H | exact (proj1 M)].
Defined.

(** The statuses of the processor are spelled in lower case, the members of
    the schema's enum in upper case: the storage client accepts none of
    them. *)
Lemma processor_statuses_refused (s : string) :
  In s processor_statuses -> SubscriptionStatus.parse s = None.
Proof.
  unfold processor_statuses. simpl.
  intros H. repeat (destruct H as [<- | H]; [reflexivity|]). destruct H.
Qed.

(** A snapshot whose status the storage client refuses is not applied, in
    any world and environment: the handler passes the status on as it comes,
    the update throws, the [catch] logs, and the tables stay as they were. *)
Lemma snapshot_refused E (snapshot : Stripe.Subscription) w :
  SubscriptionStatus.parse (Stripe.status snapshot) = None ->
  db (snd (handleSubscriptionUpdate E snapshot w)) = db w.
Proof.
  intros H.
  unfold handleSubscriptionUpdate, prisma_subscription_findUnique,
    prisma_subscription_update, SubscriptionUpdate.check.
  run. rewrite H. simpl. repeat branch; reflexivity.
Qed.

Lemma snapshot_processor_status_ignored
    E (snapshot : Stripe.Subscription) w :
  In (Stripe.status snapshot) processor_statuses ->
  db (snd (handleSubscriptionUpdate E snapshot w)) = db w.
Proof.
  intros H. apply snapshot_refused, processor_statuses_refused, H.
Qed.

(** C4. The overwrite is not reached for the statuses the processor sends.
    Two snapshots for sub_1, stored as ACTIVE with the cancel flag off, the
    first "past_due" with the cancel flag set, the last "trialing", with the
    storage working: the row keeps status ACTIVE and every other column, the
    tables are as before, and each delivery leaves "Error updating
    subscription" in the log. The status of the row is not that of the
    snapshot applied last. *)
Theorem snapshot_processor_status_not_applied :
  let E := demo_env no_fault true in
  let first := demo_snapshot "past_due" true in
  let last := demo_snapshot "trialing" false in
  let w1 := snd (handleSubscriptionUpdate E first active_world) in
  let w2 := snd (handleSubscriptionUpdate E last w1) in
  (In (Stripe.status first) processor_statuses /\
   In (Stripe.status last) processor_statuses) /\
  by_reference "sub_1" (db w2)
    = Some (demo_subscription SubscriptionStatus.ACTIVE false None) /\
  (forall sub', by_reference "sub_1" (db w2) = Some sub' ->
                Subscription.status sub' <> SubscriptionStatus.TRIALING) /\
  db w2 = db active_world /\
  log w2 = [(Error, "Error updating subscription");
            (Error, "Error updating subscription")].
Proof.
  cbv zeta. split; [split; simpl; tauto|].
  split; [reflexivity|]. split; [|split; reflexivity].
  intros sub' H. vm_compute in H. injection H as <-. discriminate.
Qed.

(** ** Cancel and reactivate *)

Lemma owns_findFirst d user id sub :
  owns d user id sub ->
  find (matches (where_id_userId id (User.id user))) (subscriptions d)
    = Some sub.
Proof.
  unfold owns, by_id. intros [H Hu].
  induction (subscriptions d) as [|x l IH]; simpl in *; [discriminate|].
  destruct (Subscription.id x =? id)%string.
  - injection H as ->. rewrite Hu, String.eqb_refl. reflexivity.
  - simpl. apply IH, H.
Qed.

Lemma name_parse st :
  SubscriptionStatus.parse (SubscriptionStatus.name st) = Some st.
Proof. destruct st; reflexivity. Qed.

(** Cancelling at period end, with processor and storage working. *)
Lemma cancel_at_period_end_ok E user id w sub :
  (forall n, db_fault E n = false) ->
  stripe_subscriptions_update E (S (tick w))
    (Subscription.stripeSubscriptionId sub) true = true ->
  owns (db w) user id sub ->
  exists sub',
    (exists r, fst (cancel E user id (Some (JBool true)) w) = Ok r /\
               success r sub') /\
    by_id id (db (snd (cancel E user id (Some (JBool true)) w))) = Some sub' /\
    Subscription.status sub' = Subscription.status sub /\
    Subscription.cancelAtPeriodEnd sub' = true /\
    Subscription.canceledAt sub' = Subscription.canceledAt sub /\
    same_terms sub' sub.
Proof.
  intros Hf Hs Ho. pose proof (owns_findFirst _ _ _ _ Ho) as Hff.
  destruct Ho as [Hid Hu]. unfold by_id in *.
  unfold cancel, prisma_subscription_findFirst, prisma_subscription_update,
    prisma_userActivity_create, SubscriptionUpdate.check, success.
  run. rewrite !Hf. simpl. rewrite Hff. simpl. rewrite Hs. simpl.
  rewrite name_parse. simpl. rewrite !Hf. simpl. rewrite Hid. simpl.
  rewrite !Hf. simpl.
  eexists. split; [eexists; split; [reflexivity|eexists; reflexivity]|].
  split; [apply find_patched; exact Hid|].
  repeat split.
Qed.

(** Reactivating, with storage working and the processor accepting. *)
Lemma reactivate_ok E user id w sub :
  (forall n, db_fault E n = false) ->
  stripe_subscriptions_update E (S (tick w))
    (Subscription.stripeSubscriptionId sub) false = true ->
  owns (db w) user id sub ->
  exists sub',
    (exists r, fst (reactivate E user id w) = Ok r /\ success r sub') /\
    by_id id (db (snd (reactivate E user id w))) = Some sub' /\
    Subscription.status sub' = Subscription.status sub /\
    Subscription.cancelAtPeriodEnd sub' = false /\
    Subscription.canceledAt sub' = None /\
    same_terms sub' sub.
Proof.
  intros Hf Hs Ho. pose proof (owns_findFirst _ _ _ _ Ho) as Hff.
  destruct Ho as [Hid Hu]. unfold by_id in *.
  unfold reactivate, prisma_subscription_findFirst,
    prisma_subscription_update, prisma_userActivity_create,
    SubscriptionUpdate.check, success.
  run. rewrite !Hf. simpl. rewrite Hff. simpl. rewrite Hs. simpl.
  rewrite !Hf. simpl. rewrite Hid. simpl. rewrite !Hf. simpl.
  eexists. split; [eexists; split; [reflexivity|eexists; reflexivity]|].
  split; [apply find_patched; exact Hid|].
  repeat split.
Qed.


Lemma same_terms_trans a b c :
  same_terms a b -> same_terms b c -> same_terms a c.
Proof.
  unfold same_terms, same_identity. intuition congruence.
Qed.

(** C5. From a Subscription of the caller that is ACTIVE with the cancel
    flag off and no canceled-at, with processor and storage working:
    cancelling at period end answers with the row still ACTIVE and flagged;
    reactivating then answers with the row ACTIVE, the flag off and
    canceled-at null, every other billing column as at the start. *)
Theorem cancel_then_reactivate E user id w sub :
  (forall n, db_fault E n = false) ->
  (forall n r b, stripe_subscriptions_update E n r b = true) ->
  owns (db w) user id sub ->
  Subscription.status sub = SubscriptionStatus.ACTIVE ->
  Subscription.cancelAtPeriodEnd sub = false ->
  Subscription.canceledAt sub = None ->
  let w1 := snd (cancel E user id (Some (JBool true)) w) in
  let w2 := snd (reactivate E user id w1) in
  exists s1 s2,
    ((exists r, fst (cancel E user id (Some (JBool true)) w) = Ok r /\
                success r s1) /\
     by_id id (db w1) = Some s1 /\
     Subscription.status s1 = SubscriptionStatus.ACTIVE /\
     Subscription.cancelAtPeriodEnd s1 = true) /\
    ((exists r, fst (reactivate E user id w1) = Ok r /\ success r s2) /\
     by_id id (db w2) = Some s2 /\
     Subscription.status s2 = SubscriptionStatus.ACTIVE /\
     Subscription.cancelAtPeriodEnd s2 = Subscription.cancelAtPeriodEnd sub /\
     Subscription.canceledAt s2 = Subscription.canceledAt sub /\
     same_terms s2 sub).
Proof.
  intros Hf Hs Ho Hst Hfl Hca w1 w2.
  destruct (cancel_at_period_end_ok E user id w sub Hf (Hs _ _ _) Ho)
    as (s1 & R1 & F1 & St1 & Fl1 & Ca1 & T1).
  fold w1 in F1.
  assert (Ho1 : owns (db w1) user id s1).
  { split; [exact F1|]. destruct Ho as [_ <-].
    destruct T1 as [I _]. unfold same_identity in I. intuition. }
  destruct (reactivate_ok E user id w1 s1 Hf (Hs _ _ _) Ho1)
    as (s2 & R2 & F2 & St2 & Fl2 & Ca2 & T2).
  fold w2 in F2.
  exists s1, s2. repeat split; auto; try congruence.
  all: try (eapply same_terms_trans; eassumption).
  all: destruct (same_terms_trans _ _ _ T2 T1) as [I P];
       unfold same_identity in I; intuition.
Qed.

Lemma cancel_then_reactivate_witness :
  let E := demo_env no_fault true in
  let w1 := snd (cancel E u1 "s1" (Some (JBool true)) active_world) in
  let w2 := snd (reactivate E u1 "s1" w1) in
  exists s1 s2,
    (by_id "s1" (db w1) = Some s1 /\
     Subscription.status s1 = SubscriptionStatus.ACTIVE /\
     Subscription.cancelAtPeriodEnd s1 = true) /\
    (by_id "s1" (db w2) = Some s2 /\
     Subscription.status s2 = SubscriptionStatus.ACTIVE /\
     Subscription.cancelAtPeriodEnd s2 = false /\
     Subscription.canceledAt s2 = None).
Proof.
  intros E w1 w2.
  destruct (cancel_then_reactivate E u1 "s1" active_world
              (demo_subscription SubscriptionStatus.ACTIVE false None)
              (demo_no_fault true) (fun _ _ _ => eq_refl)
              (conj eq_refl eq_refl) eq_refl eq_refl eq_refl)
    as (s1 & s2 & (_ & F1 & St1 & Fl1) & (_ & F2 & St2 & Fl2 & Ca2 & _)).
  exists s1, s2. repeat split; assumption.
Defined.




(** ** Create *)

(** C6 (amended). When the processor refuses to create the subscription,
    create adds no Subscription row, no Payment row and no activity entry,
    and answers 500 "Server error" whenever the plan exists (404 when it
    does not); the User table is untouched, or holds the new
    [stripeCustomerId] of a caller who had none. *)
Theorem create_remote_failure E user (planId paymentMethodId : string) w :
  (forall n c p, stripe_subscriptions_create E n c p = None) ->
  let out := create E user planId paymentMethodId w in
  (plan_by_id planId (db w) = None /\
     (fst out = Ok plan_not_found \/ fst out = Ok server_error) \/
   plan_by_id planId (db w) <> None /\ fst out = Ok server_error) /\
  subscriptions (db (snd out)) = subscriptions (db w) /\
  payments (db (snd out)) = payments (db w) /\
  activities (db (snd out)) = activities (db w) /\
  plans (db (snd out)) = plans (db w) /\
  (users (db (snd out)) = users (db w) \/
   truthy_str (User.stripeCustomerId user) = false /\
   customer_linked user (db w) (db (snd out))).
Proof.
  intros H out. subst out.
  unfold create, prisma_plan_findUnique, prisma_user_update,
    prisma_subscription_create, prisma_userActivity_create,
    plan_by_id, customer_linked, unit_answer.
  run.
  repeat branch.
  all: try match goal with
           | Hx : stripe_subscriptions_create _ _ _ _ = Some _ |- _ =>
               rewrite H in Hx; discriminate
           end.
  all: split;
    [ try destruct (find _ (plans (db w)));
      first [ right; split; [discriminate|reflexivity]
            | left; split; [reflexivity|auto] ]
    | repeat split; eauto 8 ].
Qed.

(** C6, as claimed, fails: the caller had no processor customer, the route
    links one to the caller's row, and the link stays when the processor then
    refuses the subscription; the answer is the generic 500. *)
Lemma create_failure_keeps_customer_link :
  let E := demo_env no_fault true in
  let out := create E u1 "plan_pro" "pm_1" active_world in
  (forall n c p, stripe_subscriptions_create E n c p = None) /\
  fst out = Ok server_error /\
  map User.stripeCustomerId (users (db (snd out))) = [Some "cus_1"; None] /\
  db (snd out) <> db active_world.
Proof.
  cbv zeta. split; [reflexivity|]. split; [reflexivity|].
  split; [reflexivity|].
  intros H. apply (f_equal users) in H. vm_compute in H. discriminate.
Qed.

Lemma create_remote_failure_witness :
  let out := create (demo_env no_fault true) u1 "plan_pro" "pm_1"
               active_world in
  subscriptions (db (snd out)) = subscriptions (db active_world) /\
  activities (db (snd out)) = activities (db active_world).
Proof.
  intros out.
  destruct (create_remote_failure (demo_env no_fault true) u1 "plan_pro"
              "pm_1" active_world (fun _ _ _ => eq_refl))
    as (_ & Hs & _ & Ha & _).
  split; [exact Hs | exact Ha].
Defined.

(** * Further properties of the handlers and routes *)

(** ** Deleted subscriptions *)

(** A subscription-deleted event for an external reference that matches no
    local Subscription writes nothing; unlike the update handler, which
    looks the row up first, this one lets the update fail, so the event
    always leaves an error in the log. *)
Theorem subscription_deleted_unknown E (o : Stripe.Subscription) w :
  unknown_subscription (db w) (Ref (Stripe.id o)) ->
  let w' := snd (handleSubscriptionDeleted E o w) in
  db w' = db w /\
  log w' = (log w ++ [(Error, "Error deleting subscription")])%list.
Proof.
  intros H. apply unknown_subscription_find in H.
  unfold handleSubscriptionDeleted, prisma_subscription_update. run.
  destruct (db_fault E (S (tick w))); simpl; [split; reflexivity|].
  rewrite H. split; reflexivity.
Qed.

Lemma subscription_deleted_unknown_witness :
  let w' := snd (handleSubscriptionDeleted (demo_env no_fault true)
                   (demo_snapshot "canceled" false) empty_world) in
  db w' = db empty_world /\
  log w' = [(Error, "Error deleting subscription")].
Proof.
  exact (subscription_deleted_unknown (demo_env no_fault true)
           (demo_snapshot "canceled" false) empty_world
           (fun s (H : In s []) => match H with end)).
Defined.

(** A subscription-deleted event for a known Subscription, with the update
    succeeding, sets the status to CANCELED and canceled-at to the clock read
    by the handler. Nothing of the event but its reference is used: the
    cancel flag, the period and the trial bounds stay as stored. *)
Theorem subscription_deleted_known E (o : Stripe.Subscription) w sub :
  db_fault E (S (tick w)) = false ->
  by_reference (Stripe.id o) (db w) = Some sub ->
  exists sub',
    by_reference (Stripe.id o) (db (snd (handleSubscriptionDeleted E o w)))
      = Some sub' /\
    Subscription.status sub' = SubscriptionStatus.CANCELED /\
    Subscription.canceledAt sub' = Some (clock E (tick w)) /\
    Subscription.cancelAtPeriodEnd sub' = Subscription.cancelAtPeriodEnd sub /\
    same_terms sub' sub.
Proof.
  unfold by_reference. intros Hf H.
  unfold handleSubscriptionDeleted, prisma_subscription_update. run.
  rewrite Hf. simpl. rewrite H. simpl.
  eexists. split; [apply find_patched; exact H|].
  repeat split.
Qed.

Lemma subscription_deleted_known_witness :
  exists sub',
    by_reference "sub_1"
      (db (snd (handleSubscriptionDeleted (demo_env no_fault true)
                  (demo_snapshot "canceled" false) active_world)))
      = Some sub' /\
    Subscription.status sub' = SubscriptionStatus.CANCELED /\
    Subscription.canceledAt sub' = Some 1700000000000.
Proof.
  destruct (subscription_deleted_known (demo_env no_fault true)
              (demo_snapshot "canceled" false) active_world
              (demo_subscription SubscriptionStatus.ACTIVE false None)
              eq_refl eq_refl)
    as (s & H & St & Ca & _).
  exists s. repeat split; assumption.
Defined.

(** ** Deliveries that are not verified *)

(** A delivery whose signature does not verify is answered 400 with the
    verifier's message and reaches no handler: no storage call, processor
    call or clock reading is made and the tables stay as they were. *)
Theorem webhook_rejects_unverified
    E (body : string) (sig : option string) w message :
  constructEvent E body sig (endpointSecret E) = inr message ->
  let out := webhook E body sig w in
  fst out = Ok (mkResponse 400 (text_body ("Webhook Error: " ++ message))) /\
  db (snd out) = db w /\
  tick (snd out) = tick w.
Proof.
  intros H. unfold webhook. rewrite H. run. repeat split.
Qed.

Lemma webhook_rejects_unverified_witness :
  let out := webhook (demo_env no_fault true) "{}" (Some "forged")
               active_world in
  status_code
    match fst out with
    | Ok r => r
    | Throw _ => mkResponse 0 received_body
    end = 400 /\
  db (snd out) = db active_world.
Proof.
  destruct (webhook_rejects_unverified (demo_env no_fault true) "{}"
              (Some "forged") active_world
              "No signatures found matching the expected signature" eq_refl)
    as (Hr & Hd & _).
  cbv zeta. rewrite Hr. split; [reflexivity | exact Hd].
Defined.

(** ** Linking a processor customer *)

(** A customer-created event whose metadata names an existing user, for a
    customer reference no other user holds and with the update succeeding,
    stores the reference on that user's row and writes nothing else. *)
Theorem customer_created_links E (o : Stripe.Customer) w userId u :
  db_fault E (tick w) = false ->
  Stripe.metadata_userId o = Some userId ->
  nonempty userId = true ->
  user_by_id userId (db w) = Some u ->
  customer_taken userId (Stripe.customer_id o) (db w) = false ->
  let d' := db (snd (handleCustomerCreated E o w)) in
  (exists u',
     user_by_id userId d' = Some u' /\
     User.stripeCustomerId u' = Some (Stripe.customer_id o) /\
     User.id u' = User.id u /\ User.email u' = User.email u) /\
  map User.id (users d') = map User.id (users (db w)) /\
  subscriptions d' = subscriptions (db w) /\
  payments d' = payments (db w) /\
  activities d' = activities (db w).
Proof.
  unfold user_by_id, customer_taken. intros Hf Hm Hn Hu Ht.
  unfold handleCustomerCreated, prisma_user_update.
  rewrite Hm, Hn. run. rewrite Hf. simpl. rewrite Hu, Ht. simpl.
  split; [|repeat split].
  - eexists. split.
    + apply find_update_first; [exact Hu|]. simpl.
      exact (proj2 (find_some _ _ Hu)).
    + repeat split.
  - clear. induction (users (db w)) as [|x l IH]; simpl; [reflexivity|].
    destruct (User.id x =? userId)%string; simpl; [reflexivity|].
    now rewrite IH.
Qed.

Lemma customer_created_links_witness :
  let d' := db (snd (handleCustomerCreated (demo_env no_fault true)
                       (Stripe.mkCustomer "cus_9" (Some "u2"))
                       active_world)) in
  map User.stripeCustomerId (users d') = [None; Some "cus_9"].
Proof.
  destruct (customer_created_links (demo_env no_fault true)
              (Stripe.mkCustomer "cus_9" (Some "u2")) active_world "u2" u2
              eq_refl eq_refl eq_refl eq_refl eq_refl)
    as (_ & _).
  reflexivity.
Defined.

(** A customer-created event for a customer reference that another user
    already holds is refused by the unique index and writes nothing. *)
Theorem customer_created_conflict E (o : Stripe.Customer) w userId :
  Stripe.metadata_userId o = Some userId ->
  customer_taken userId (Stripe.customer_id o) (db w) = true ->
  db (snd (handleCustomerCreated E o w)) = db w.
Proof.
  unfold customer_taken. intros Hm Ht.
  unfold handleCustomerCreated, prisma_user_update.
  rewrite Hm. destruct (nonempty userId); run; [|reflexivity].
  rewrite Ht. repeat branch; reflexivity.
Qed.

Lemma customer_created_conflict_witness :
  let w := mkWorld
             (mkDB [User.mk "u1" "u1@example.com" "Ada" "Doe"
                      (Some "cus_9") None 0; u2] [pro] [] [] []) 0 [] in
  db (snd (handleCustomerCreated (demo_env no_fault true)
             (Stripe.mkCustomer "cus_9" (Some "u2")) w)) = db w.
Proof.
  intros w.
  exact (customer_created_conflict (demo_env no_fault true)
           (Stripe.mkCustomer "cus_9" (Some "u2")) w "u2" eq_refl eq_refl).
Defined.

(** ** Payments that are not filed, and payments filed twice *)

(** A payment-succeeded invoice whose payment intent is not a string id
    (absent, or an expanded object), or whose amount does not fit the [Int]
    column, is not filed: the insert is refused before it reaches the
    storage, the handler swallows the error, and neither a Payment row nor
    an activity entry is written. *)
Theorem payment_succeeded_not_filed E (invoice : Stripe.Invoice) w :
  (forall pid, Stripe.payment_intent invoice <> Ref pid) \/
  int32 (Stripe.amount_paid invoice) = false ->
  db (snd (handlePaymentSucceeded E invoice w)) = db w.
Proof.
  intros H.
  unfold handlePaymentSucceeded, prisma_subscription_findUnique,
    prisma_payment_create, prisma_userActivity_create.
  destruct H as [H | H].
  - destruct (Stripe.payment_intent invoice) as [|pid|i];
      [| exfalso; exact (H pid eq_refl) |];
      run; repeat branch; reflexivity.
  - run. repeat branch; try reflexivity; congruence.
Qed.

Lemma payment_succeeded_not_filed_witness :
  db (snd (handlePaymentSucceeded (demo_env no_fault true)
             (Stripe.mkInvoice (Ref "sub_1") Null 2999 2999 "usd" None None)
             active_world))
    = db active_world.
Proof.
  apply payment_succeeded_not_filed. left. intros pid H. discriminate H.
Defined.

(** One delivery of a payment-failed invoice without a payment intent. *)
Lemma payment_failed_without_intent_run
    E (invoice : Stripe.Invoice) w (r : string) (sub : Subscription.t) :
  (forall n, db_fault E n = false) ->
  Stripe.subscription invoice = Ref r ->
  nonempty r = true ->
  by_reference r (db w) = Some sub ->
  truthy_exp (Stripe.payment_intent invoice) = false ->
  int32 (Stripe.amount_due invoice) = true ->
  fresh_payment (db w) (failed_reference E (S (tick w))) ->
  let w1 := snd (handlePaymentFailed E invoice w) in
  exists p a,
    (Payment.stripePaymentId p = failed_reference E (S (tick w)) /\
     Payment.status p = PaymentStatus.FAILED /\
     Payment.amount p = Stripe.amount_due invoice) /\
    db w1 = add_activity a (add_payment p (db w)) /\
    tick w1 = (4 + tick w)%nat.
Proof.
  unfold by_reference, failed_reference.
  intros Hf Hs Hr Hsub Hpi Hamt Hfresh.
  apply fresh_payment_existsb in Hfresh. unfold has_reference in Hfresh.
  unfold handlePaymentFailed, prisma_subscription_findUnique,
    prisma_payment_create, prisma_userActivity_create.
  rewrite Hs, Hpi. cbn [truthy_exp]. rewrite Hr. run.
  rewrite !Hf. simpl. rewrite Hsub. simpl. rewrite Hamt. simpl.
  simpl in Hfresh. rewrite !Hf, Hfresh. simpl. rewrite !Hf. simpl.
  do 2 eexists. split; [|split]; [|reflexivity|reflexivity]; repeat split.
Qed.

(** Two deliveries of the same payment-failed invoice without a payment
    intent, with the storage working and the clock having moved between
    them, are filed as two Payment rows with two activity entries: the
    reference is made from the clock, so the unique index does not see a
    duplicate. *)
Theorem payment_failed_without_intent_twice
    E (invoice : Stripe.Invoice) w (r : string) (sub : Subscription.t) :
  (forall n, db_fault E n = false) ->
  Stripe.subscription invoice = Ref r ->
  nonempty r = true ->
  by_reference r (db w) = Some sub ->
  truthy_exp (Stripe.payment_intent invoice) = false ->
  int32 (Stripe.amount_due invoice) = true ->
  fresh_payment (db w) (failed_reference E (S (tick w))) ->
  fresh_payment (db w) (failed_reference E (5 + tick w)) ->
  failed_reference E (S (tick w)) <> failed_reference E (5 + tick w) ->
  let w1 := snd (handlePaymentFailed E invoice w) in
  let w2 := snd (handlePaymentFailed E invoice w1) in
  exists p1 p2 a1 a2,
    Payment.stripePaymentId p1 = failed_reference E (S (tick w)) /\
    Payment.stripePaymentId p2 = failed_reference E (5 + tick w) /\
    payments (db w2) = (payments (db w) ++ [p1; p2])%list /\
    activities (db w2) = (activities (db w) ++ [a1; a2])%list.
Proof.
  intros Hf Hs Hr Hsub Hpi Hamt F1 F2 Hne w1 w2.
  destruct (payment_failed_without_intent_run E invoice w r sub
              Hf Hs Hr Hsub Hpi Hamt F1) as (p1 & a1 & (R1 & _) & D1 & T1).
  fold w1 in D1, T1.
  assert (Hsub1 : by_reference r (db w1) = Some sub).
  { unfold by_reference. rewrite D1. exact Hsub. }
  assert (F2' : fresh_payment (db w1) (failed_reference E (S (tick w1)))).
  { rewrite T1. intros q Hq. rewrite D1 in Hq. simpl in Hq.
    apply in_app_or in Hq. destruct Hq as [Hq | [<- | []]].
    - exact (F2 q Hq).
    - rewrite R1. exact Hne. }
  destruct (payment_failed_without_intent_run E invoice w1 r sub
              Hf Hs Hr Hsub1 Hpi Hamt F2') as (p2 & a2 & (R2 & _) & D2 & _).
  fold w2 in D2. rewrite T1 in R2.
  exists p1, p2, a1, a2. rewrite D2, D1. simpl.
  rewrite <- !app_assoc. repeat split; assumption.
Qed.

Lemma payment_failed_without_intent_twice_witness :
  let E := demo_env no_fault true in
  let invoice := Stripe.mkInvoice (Ref "sub_1") Null 0 2999 "usd" None None in
  let w1 := snd (handlePaymentFailed E invoice active_world) in
  let w2 := snd (handlePaymentFailed E invoice w1) in
  List.length (payments (db w2)) = 2%nat /\
  List.length (activities (db w2)) = 2%nat.
Proof.
  intros E invoice w1 w2.
  destruct (payment_failed_without_intent_twice E invoice active_world
              "sub_1" (demo_subscription SubscriptionStatus.ACTIVE false None)
              (demo_no_fault true) eq_refl eq_refl eq_refl eq_refl eq_refl
              (fun q (H : In q []) => match H with end)
              (fun q (H : In q []) => match H with end))
    as (p1 & p2 & a1 & a2 & _ & _ & Hp & Ha).
  - vm_compute. discriminate.
  - fold w1 w2 in Hp, Ha. rewrite Hp, Ha. split; reflexivity.
Defined.

(** One delivery of a payment-failed invoice that carries a payment
    intent. *)
Lemma payment_failed_first
    E (invoice : Stripe.Invoice) w (r pid : string) (sub : Subscription.t) :
  (forall n, db_fault E n = false) ->
  Stripe.subscription invoice = Ref r ->
  nonempty r = true ->
  by_reference r (db w) = Some sub ->
  Stripe.payment_intent invoice = Ref pid ->
  nonempty pid = true ->
  int32 (Stripe.amount_due invoice) = true ->
  fresh_payment (db w) pid ->
  exists p a,
    (Payment.stripePaymentId p = pid /\
     Payment.amount p = Stripe.amount_due invoice /\
     Payment.status p = PaymentStatus.FAILED /\
     Payment.receiptUrl p = None /\
     Payment.userId p = Subscription.userId sub /\
     Payment.subscriptionId p = Some (Subscription.id sub)) /\
    (UserActivity.action a = "PAYMENT_FAILED" /\
     UserActivity.userId a = Subscription.userId sub) /\
    db (snd (handlePaymentFailed E invoice w))
      = add_activity a (add_payment p (db w)).
Proof.
  unfold by_reference. intros Hf Hs Hr Hsub Hpi Hp Hamt Hfresh.
  apply fresh_payment_existsb in Hfresh. unfold has_reference in Hfresh.
  unfold handlePaymentFailed, prisma_subscription_findUnique,
    prisma_payment_create, prisma_userActivity_create.
  rewrite Hs, Hpi. cbn [truthy_exp]. rewrite Hr, Hp. run.
  rewrite !Hf. simpl. rewrite Hsub. simpl. rewrite Hamt. simpl.
  rewrite !Hf, Hfresh. simpl. rewrite !Hf. simpl.
  do 2 eexists. split; [|split]; [| |reflexivity]; repeat split.
Qed.

Lemma payment_failed_duplicate E (invoice : Stripe.Invoice) w pid :
  Stripe.payment_intent invoice = Ref pid ->
  nonempty pid = true ->
  existsb (has_reference pid) (payments (db w)) = true ->
  db (snd (handlePaymentFailed E invoice w)) = db w.
Proof.
  intros Hpi Hp Hex. unfold has_reference in Hex.
  unfold handlePaymentFailed, prisma_subscription_findUnique,
    prisma_payment_create, prisma_userActivity_create.
  rewrite Hpi. cbn [truthy_exp]. rewrite Hp. run.
  repeat branch; try reflexivity; congruence.
Qed.

(** Two deliveries of a payment-failed invoice that carries a payment
    intent, for a known subscription and with the storage working: the
    first files one FAILED Payment row for the amount due, without receipt,
    and one activity entry; the second is refused by the unique index and
    writes nothing. *)
Theorem payment_failed_redelivery
    E (invoice : Stripe.Invoice) w (r pid : string) (sub : Subscription.t) :
  (forall n, db_fault E n = false) ->
  Stripe.subscription invoice = Ref r ->
  nonempty r = true ->
  by_reference r (db w) = Some sub ->
  Stripe.payment_intent invoice = Ref pid ->
  nonempty pid = true ->
  int32 (Stripe.amount_due invoice) = true ->
  fresh_payment (db w) pid ->
  let w1 := snd (handlePaymentFailed E invoice w) in
  let w2 := snd (handlePaymentFailed E invoice w1) in
  exists p a,
    (Payment.stripePaymentId p = pid /\
     Payment.amount p = Stripe.amount_due invoice /\
     Payment.status p = PaymentStatus.FAILED /\
     Payment.receiptUrl p = None /\
     Payment.userId p = Subscription.userId sub /\
     Payment.subscriptionId p = Some (Subscription.id sub)) /\
    (UserActivity.action a = "PAYMENT_FAILED" /\
     UserActivity.userId a = Subscription.userId sub) /\
    db w1 = add_activity a (add_payment p (db w)) /\
    db w2 = db w1.
Proof.
  intros Hf Hs Hr Hsub Hpi Hp Hamt Hfresh w1 w2.
  destruct (payment_failed_first E invoice w r pid sub
              Hf Hs Hr Hsub Hpi Hp Hamt Hfresh) as (p & a & Pp & Pa & H1).
  fold w1 in H1.
  exists p, a. repeat split; try apply Pp; try apply Pa; auto.
  apply (payment_failed_duplicate E invoice w1 pid Hpi Hp).
  rewrite H1. simpl. rewrite existsb_app. simpl.
  unfold has_reference at 2. destruct Pp as [-> _].
  rewrite String.eqb_refl. apply orb_true_r.
Qed.

Lemma payment_failed_redelivery_witness :
  let E := demo_env no_fault true in
  let w1 := snd (handlePaymentFailed E demo_invoice active_world) in
  let w2 := snd (handlePaymentFailed E demo_invoice w1) in
  db w2 = db w1 /\ List.length (payments (db w1)) = 1%nat.
Proof.
  intros E w1 w2.
  destruct (payment_failed_redelivery E demo_invoice active_world
              "sub_1" "pi_1"
              (demo_subscription SubscriptionStatus.ACTIVE false None)
              (demo_no_fault true) eq_refl eq_refl eq_refl eq_refl eq_refl
              eq_refl (fun q (H : In q []) => match H with end))
    as (p & a & _ & _ & H1 & H2).
  fold w1 w2 in H1, H2. split; [exact H2|]. rewrite H1. reflexivity.
Defined.

(** ** Cancel: immediate cancellation, refusals *)

(** Cancelling immediately ([cancelAtPeriodEnd: false]), with the processor
    accepting the cancellation and the storage working, answers with the
    row: status CANCELED, canceled-at the clock read after the processor
    call, cancel flag off; the period and trial bounds are not touched. *)
Theorem cancel_immediately_ok E user id w sub :
  (forall n, db_fault E n = false) ->
  stripe_subscriptions_cancel E (S (tick w))
    (Subscription.stripeSubscriptionId sub) = true ->
  owns (db w) user id sub ->
  let out := cancel E user id (Some (JBool false)) w in
  exists sub',
    (exists r, fst out = Ok r /\ success r sub') /\
    by_id id (db (snd out)) = Some sub' /\
    Subscription.status sub' = SubscriptionStatus.CANCELED /\
    Subscription.cancelAtPeriodEnd sub' = false /\
    Subscription.canceledAt sub' = Some (clock E (S (S (tick w)))) /\
    same_terms sub' sub.
Proof.
  intros Hf Hs Ho. pose proof (owns_findFirst _ _ _ _ Ho) as Hff.
  destruct Ho as [Hid Hu]. unfold by_id in *.
  unfold cancel, prisma_subscription_findFirst, prisma_subscription_update,
    prisma_userActivity_create, SubscriptionUpdate.check, success.
  run. rewrite !Hf. simpl. rewrite Hff. simpl. rewrite Hs. simpl.
  rewrite !Hf. simpl. rewrite Hid. simpl. rewrite !Hf. simpl.
  eexists. split; [eexists; split; [reflexivity|eexists; reflexivity]|].
  split; [apply find_patched; exact Hid|].
  repeat split.
Qed.

Lemma cancel_immediately_ok_witness :
  let out := cancel (demo_env no_fault true) u1 "s1" (Some (JBool false))
               active_world in
  exists sub',
    by_id "s1" (db (snd out)) = Some sub' /\
    Subscription.status sub' = SubscriptionStatus.CANCELED /\
    Subscription.canceledAt sub' = Some 1700000000002.
Proof.
  destruct (cancel_immediately_ok (demo_env no_fault true) u1 "s1"
              active_world
              (demo_subscription SubscriptionStatus.ACTIVE false None)
              (demo_no_fault true) eq_refl (conj eq_refl eq_refl))
    as (s & _ & F & St & _ & Ca & _).
  exists s. repeat split; assumption.
Defined.

(** When the processor refuses the cancellation (either form of it), cancel
    answers 500 "Server error" and writes nothing: neither the Subscription
    row nor the activity log changes. *)
Theorem cancel_remote_failure E user id (body : option Json) w sub :
  db_fault E (tick w) = false ->
  (forall r b, stripe_subscriptions_update E (S (tick w)) r b = false) ->
  (forall r, stripe_subscriptions_cancel E (S (tick w)) r = false) ->
  owns (db w) user id sub ->
  fst (cancel E user id body w) = Ok server_error /\
  db (snd (cancel E user id body w)) = db w.
Proof.
  intros Hf Hu Hc Ho. pose proof (owns_findFirst _ _ _ _ Ho) as Hff.
  unfold cancel, prisma_subscription_findFirst.
  run. rewrite Hf. simpl. rewrite Hff. simpl.
  destruct (truthy _); run; rewrite ?Hu, ?Hc; simpl; split; reflexivity.
Qed.

Lemma cancel_remote_failure_witness :
  let out := cancel (demo_env no_fault false) u1 "s1" None active_world in
  fst out = Ok server_error /\ db (snd out) = db active_world.
Proof.
  exact (cancel_remote_failure (demo_env no_fault false) u1 "s1" None
           active_world
           (demo_subscription SubscriptionStatus.ACTIVE false None)
           eq_refl (fun _ _ => eq_refl) (fun _ => eq_refl)
           (conj eq_refl eq_refl)).
Defined.



(** ** Create: the stored row, the missing plan, the unusable answer *)

Lemma find_none_existsb {A} (p : A -> bool) (l : list A) :
  find p l = None -> existsb p l = false.
Proof.
  intros H. apply existsb_absent. exact (find_none p l H).
Qed.

(** Create for a caller who already has a processor customer, with every
    processor call accepted, a status of the schema's enum, an external
    reference new to the table and the storage working: one Subscription row
    is appended, seeded from the processor's answer (reference, status,
    period bounds in milliseconds) with the defaults of the schema (quantity
    1, cancel flag off, no canceled-at), one SUBSCRIPTION_CREATED activity is
    logged, and the answer carries the row, its plan and the client secret. *)
Theorem create_ok E user (planId paymentMethodId : string) w plan ss st cid :
  (forall n, db_fault E n = false) ->
  plan_by_id planId (db w) = Some plan ->
  User.stripeCustomerId user = Some cid ->
  nonempty cid = true ->
  (forall n, stripe_paymentMethods_attach E n paymentMethodId cid = true) ->
  (forall n, stripe_customers_update E n cid paymentMethodId = true) ->
  (forall n, stripe_subscriptions_create E n cid (Plan.stripePriceId plan)
             = Some ss) ->
  SubscriptionStatus.parse (Stripe.status ss) = Some st ->
  by_reference (Stripe.id ss) (db w) = None ->
  let out := create E user planId paymentMethodId w in
  exists s a,
    fst out = Ok (mkResponse 200
                    (created_body s (Some plan) (Stripe.client_secret ss))) /\
    db (snd out) = add_activity a (add_subscription s (db w)) /\
    (Subscription.stripeSubscriptionId s = Stripe.id ss /\
     Subscription.status s = st /\
     Subscription.userId s = User.id user /\
     Subscription.companyId s = User.companyId user /\
     Subscription.planId s = Plan.id plan /\
     Subscription.priceId s = Plan.stripePriceId plan /\
     Subscription.quantity s = 1 /\
     Subscription.currentPeriodStart s
       = Stripe.current_period_start ss * 1000 /\
     Subscription.currentPeriodEnd s = Stripe.current_period_end ss * 1000 /\
     Subscription.cancelAtPeriodEnd s = false /\
     Subscription.canceledAt s = None) /\
    (UserActivity.action a = "SUBSCRIPTION_CREATED" /\
     UserActivity.userId a = User.id user).
Proof.
  unfold plan_by_id, by_reference.
  intros Hf Hplan Hc Hn Hat Hup Hcr Hst Hnew.
  apply find_none_existsb in Hnew.
  assert (Hjoin : find (fun p => (Plan.id p =? Plan.id plan)%string)
                    (plans (db w)) = Some plan).
  { destruct (find_some _ _ Hplan) as [_ He].
    apply String.eqb_eq in He. rewrite He. exact Hplan. }
  unfold create, prisma_plan_findUnique, prisma_subscription_create,
    prisma_userActivity_create, unit_answer, truthy_str, join_plan.
  rewrite Hc. cbn [or_else]. rewrite Hn. run.
  rewrite !Hf. simpl. rewrite Hplan. simpl. rewrite Hn. simpl.
  rewrite Hat. simpl. rewrite Hup. simpl. rewrite Hcr. simpl.
  rewrite Hst. simpl. rewrite !Hf, Hnew. simpl. rewrite !Hf. simpl.
  rewrite Hjoin.
  do 2 eexists. split; [reflexivity|]. split; [reflexivity|].
  repeat split.
Qed.

Lemma create_ok_witness :
  let out := create (creating_env "INCOMPLETE") u3 "plan_pro" "pm_1"
               customer_world in
  exists s a,
    db (snd out) = add_activity a (add_subscription s (db customer_world)) /\
    Subscription.stripeSubscriptionId s = "sub_2" /\
    Subscription.status s = SubscriptionStatus.INCOMPLETE.
Proof.
  destruct (create_ok (creating_env "INCOMPLETE") u3 "plan_pro" "pm_1"
              customer_world pro (demo_created "INCOMPLETE")
              SubscriptionStatus.INCOMPLETE "cus_3"
              (fun _ => eq_refl) eq_refl eq_refl eq_refl
              (fun _ => eq_refl) (fun _ => eq_refl) (fun _ => eq_refl)
              eq_refl eq_refl)
    as (s & a & _ & Hd & (Hr & Hs & _) & _).
  exists s, a. repeat split; assumption.
Defined.

(** When the plan does not exist, create answers 404 "Plan not found" after
    the lookup alone: the processor is not called and nothing is written. *)
Theorem create_plan_not_found E user (planId paymentMethodId : string) w :
  db_fault E (tick w) = false ->
  plan_by_id planId (db w) = None ->
  let out := create E user planId paymentMethodId w in
  fst out = Ok plan_not_found /\
  db (snd out) = db w /\
  tick (snd out) = S (tick w).
Proof.
  unfold plan_by_id. intros Hf Hp.
  unfold create, prisma_plan_findUnique. run.
  rewrite Hf. simpl. rewrite Hp. repeat split.
Qed.

Lemma create_plan_not_found_witness :
  let out := create (demo_env no_fault true) u1 "plan_gone" "pm_1"
               active_world in
  fst out = Ok plan_not_found /\ db (snd out) = db active_world.
Proof.
  destruct (create_plan_not_found (demo_env no_fault true) u1 "plan_gone"
              "pm_1" active_world eq_refl eq_refl) as (Hr & Hd & _).
  split; assumption.
Defined.

(** Create stores a Subscription only for a processor answer whose status is
    a member of the schema's enum. If every answer the processor can give
    carries another status (the status is passed to the storage as it
    comes), the subscription may exist at the processor, but no local
    Subscription row and no activity entry is written and the answer is an
    error. *)
Theorem create_status_outside_enum
    E user (planId paymentMethodId : string) w :
  (forall n c p ss,
     stripe_subscriptions_create E n c p = Some ss ->
     SubscriptionStatus.parse (Stripe.status ss) = None) ->
  let out := create E user planId paymentMethodId w in
  (fst out = Ok plan_not_found \/ fst out = Ok server_error) /\
  subscriptions (db (snd out)) = subscriptions (db w) /\
  activities (db (snd out)) = activities (db w).
Proof.
  intros H out. subst out.
  unfold create, prisma_plan_findUnique, prisma_user_update,
    prisma_subscription_create, prisma_userActivity_create, unit_answer.
  run.
  repeat branch.
  all: try match goal with
           | Hx : stripe_subscriptions_create _ _ _ _ = Some ?s,
             Hy : SubscriptionStatus.parse (Stripe.status ?s) = Some _
             |- _ => rewrite (H _ _ _ _ Hx) in Hy; discriminate
           end.
  all: repeat split; auto.
Qed.

Lemma create_status_outside_enum_witness :
  let out := create (creating_env "incomplete") u3 "plan_pro" "pm_1"
               customer_world in
  subscriptions (db (snd out)) = subscriptions (db customer_world) /\
  activities (db (snd out)) = activities (db customer_world).
Proof.
  destruct (create_status_outside_enum (creating_env "incomplete") u3
              "plan_pro" "pm_1" customer_world) as (_ & Hs & Ha).
  - intros n c p ss H. injection H as <-. reflexivity.
  - split; assumption.
Defined.

(** ** What the handlers and routes never do *)

Lemma map_update_first {A B} (g : A -> B) (p : A -> bool) (f : A -> A) l :
  (forall x, g (f x) = g x) -> map g (update_first p f l) = map g l.
Proof.
  intros H. induction l as [|x r IH]; simpl; [reflexivity|].
  destruct (p x); simpl; [now rewrite H | now rewrite IH].
Qed.

Lemma extends_refl {A} (l : list A) : extends l l.
Proof. exists []. now rewrite app_nil_r. Qed.

Ltac frame :=
  unfold webhook_frame, lifecycle_frame; simpl;
  rewrite ?map_app;
  rewrite ?map_update_first by (intros; reflexivity);
  repeat split;
  first [ reflexivity
        | apply extends_refl
        | eexists; reflexivity ].

Lemma subscription_update_frame E o w :
  webhook_frame (db w) (db (snd (handleSubscriptionUpdate E o w))).
Proof.
  unfold handleSubscriptionUpdate, prisma_subscription_findUnique,
    prisma_subscription_update.
  run. repeat branch; frame.
Qed.

Lemma subscription_deleted_frame E o w :
  webhook_frame (db w) (db (snd (handleSubscriptionDeleted E o w))).
Proof.
  unfold handleSubscriptionDeleted, prisma_subscription_update.
  run. repeat branch; frame.
Qed.

Lemma payment_succeeded_frame E o w :
  webhook_frame (db w) (db (snd (handlePaymentSucceeded E o w))).
Proof.
  unfold handlePaymentSucceeded, prisma_subscription_findUnique,
    prisma_payment_create, prisma_userActivity_create.
  run. repeat branch; frame.
Qed.

Lemma payment_failed_frame E o w :
  webhook_frame (db w) (db (snd (handlePaymentFailed E o w))).
Proof.
  unfold handlePaymentFailed, prisma_subscription_findUnique,
    prisma_payment_create, prisma_userActivity_create.
  run. repeat branch; frame.
Qed.

Lemma customer_created_frame E o w :
  webhook_frame (db w) (db (snd (handleCustomerCreated E o w))).
Proof.
  unfold handleCustomerCreated, prisma_user_update.
  destruct (Stripe.metadata_userId o) as [u|]; [|run; frame].
  destruct (nonempty u); run; [|frame].
  repeat branch; frame.
Qed.

(** The tables after the route are those the handler left. *)
Lemma webhook_db E (body : string) (sig : option string) w :
  db (snd (webhook E body sig w)) = db w \/
  exists event,
    constructEvent E body sig (endpointSecret E) = inl event /\
    match event with
    | Stripe.customer_subscription_created o
    | Stripe.customer_subscription_updated o =>
        db (snd (webhook E body sig w))
          = db (snd (handleSubscriptionUpdate E o w))
    | Stripe.customer_subscription_deleted o =>
        db (snd (webhook E body sig w))
          = db (snd (handleSubscriptionDeleted E o w))
    | Stripe.invoice_payment_succeeded o =>
        db (snd (webhook E body sig w))
          = db (snd (handlePaymentSucceeded E o w))
    | Stripe.invoice_payment_failed o =>
        db (snd (webhook E body sig w))
          = db (snd (handlePaymentFailed E o w))
    | Stripe.customer_created o =>
        db (snd (webhook E body sig w))
          = db (snd (handleCustomerCreated E o w))
    | Stripe.other _ => db (snd (webhook E body sig w)) = db w
    end.
Proof.
  unfold webhook.
  destruct (constructEvent E body sig (endpointSecret E)) as [event|m];
    [right; exists event; split; [reflexivity|] | left; reflexivity].
  destruct (handlers_complete E) as (Hu & Hd & Hs & Hf & Hc).
  destruct event as [o|o|o|o|o|o|type];
    unfold try_catch at 1; unfold bind at 1.
  - destruct (Hu o w) as [w' ->]. reflexivity.
  - destruct (Hu o w) as [w' ->]. reflexivity.
  - destruct (Hd o w) as [w' ->]. reflexivity.
  - destruct (Hs o w) as [w' ->]. reflexivity.
  - destruct (Hf o w) as [w' ->]. reflexivity.
  - destruct (Hc o w) as [w' ->]. reflexivity.
  - reflexivity.
Qed.

(** Whatever is delivered to the webhook, verified or not, and whatever the
    storage does: Payment rows and activity entries are only ever appended;
    no Subscription or User row is added or removed, and none changes its
    id, its external reference or its owner; the plans are not touched. *)
Theorem webhook_append_only E (body : string) (sig : option string) w :
  webhook_frame (db w) (db (snd (webhook E body sig w))).
Proof.
  destruct (webhook_db E body sig w) as [-> | (event & _ & H)]; [frame|].
  destruct event; rewrite H.
  - apply subscription_update_frame.
  - apply subscription_update_frame.
  - apply subscription_deleted_frame.
  - apply payment_succeeded_frame.
  - apply payment_failed_frame.
  - apply customer_created_frame.
  - frame.
Qed.

(** Create, cancel and reactivate, whatever the processor and the storage
    do: they never write a Payment row or touch a plan; activity entries and
    Subscription rows are only appended; no existing Subscription changes its
    id, external reference or owner; no User row is added or removed. *)
Theorem lifecycle_append_only
    E user (planId paymentMethodId id : string) (body : option Json) w :
  lifecycle_frame (db w) (db (snd (create E user planId paymentMethodId w))) /\
  lifecycle_frame (db w) (db (snd (cancel E user id body w))) /\
  lifecycle_frame (db w) (db (snd (reactivate E user id w))).
Proof.
  split; [|split].
  - unfold create, prisma_plan_findUnique, prisma_user_update,
      prisma_subscription_create, prisma_userActivity_create, unit_answer.
    run. repeat branch; frame.
  - unfold cancel, prisma_subscription_findFirst, prisma_subscription_update,
      prisma_userActivity_create, unit_answer.
    run. repeat branch; frame.
  - unfold reactivate, prisma_subscription_findFirst,
      prisma_subscription_update, prisma_userActivity_create, unit_answer.
    run. repeat branch; frame.
Qed.

Lemma NoDup_snoc {A} (l : list A) (a : A) :
  NoDup l -> ~ In a l -> NoDup (l ++ [a]).
Proof.
  induction l as [|x r IH]; simpl; intros Hn Ha.
  - constructor; [intros []|constructor].
  - inversion Hn as [|y t Hx Hr]; subst. constructor.
    + intros Hin. apply in_app_or in Hin. destruct Hin as [Hin | [<- | []]].
      * exact (Hx Hin).
      * apply Ha. now left.
    + apply IH; [exact Hr|]. intros Hin. apply Ha. now right.
Qed.

Lemma existsb_false_not_in {A} (f : A -> string) (k : string) (l : list A) :
  existsb (fun x => (f x =? k)%string) l = false -> ~ In k (map f l).
Proof.
  intros H Hin. apply in_map_iff in Hin. destruct Hin as (x & <- & Hx).
  assert (Ht : existsb (fun y => (f y =? f x)%string) l = true).
  { apply existsb_exists. exists x. split; [exact Hx|apply String.eqb_refl]. }
  congruence.
Qed.

Ltac unique :=
  match goal with
  | H : unique_references _ |- unique_references _ =>
      let Hp := fresh "Hp" in
      let Hs := fresh "Hs" in
      destruct H as [Hp Hs]; split; simpl;
      rewrite ?map_update_first by (intros; reflexivity);
      rewrite ?map_app; simpl;
      try assumption;
      (apply NoDup_snoc; [assumption|]);
      match goal with
      | Hx : existsb _ _ = false |- _ =>
          first [ exact (existsb_false_not_in Payment.stripePaymentId _ _ Hx)
                | exact (existsb_false_not_in
                           Subscription.stripeSubscriptionId _ _ Hx) ]
      end
  end.

Lemma payment_succeeded_unique E o w :
  unique_references (db w) ->
  unique_references (db (snd (handlePaymentSucceeded E o w))).
Proof.
  intros H.
  unfold handlePaymentSucceeded, prisma_subscription_findUnique,
    prisma_payment_create, prisma_userActivity_create.
  run. repeat branch; unique.
Qed.

Lemma payment_failed_unique E o w :
  unique_references (db w) ->
  unique_references (db (snd (handlePaymentFailed E o w))).
Proof.
  intros H.
  unfold handlePaymentFailed, prisma_subscription_findUnique,
    prisma_payment_create, prisma_userActivity_create.
  run. repeat branch; unique.
Qed.

(** A frame that leaves the payments alone keeps the unique indexes. *)
Lemma webhook_frame_unique d d' :
  webhook_frame d d' -> payments d' = payments d ->
  unique_references d -> unique_references d'.
Proof.
  intros (_ & _ & _ & Hr & _) Hp [Up Us]. split.
  - now rewrite Hp.
  - now rewrite Hr.
Qed.

Lemma payments_untouched E :
  (forall o w, payments (db (snd (handleSubscriptionUpdate E o w)))
               = payments (db w)) /\
  (forall o w, payments (db (snd (handleSubscriptionDeleted E o w)))
               = payments (db w)) /\
  (forall o w, payments (db (snd (handleCustomerCreated E o w)))
               = payments (db w)).
Proof.
  split; [|split]; intros o w.
  - unfold handleSubscriptionUpdate, prisma_subscription_findUnique,
      prisma_subscription_update.
    run. repeat branch; reflexivity.
  - unfold handleSubscriptionDeleted, prisma_subscription_update.
    run. repeat branch; reflexivity.
  - unfold handleCustomerCreated, prisma_user_update.
    destruct (Stripe.metadata_userId o) as [u|]; [|reflexivity].
    destruct (nonempty u); run; [|reflexivity].
    repeat branch; reflexivity.
Qed.

(** The unique indexes on the external references are an invariant of the
    whole write side: if no two Payment rows share a payment reference and
    no two Subscription rows share a subscription reference, the same holds
    after any webhook delivery and after any create, cancel or reactivate,
    whatever the processor and the storage do. *)
Theorem unique_references_kept
    E (body : string) (sig : option string) user
    (planId paymentMethodId id : string) (flag : option Json) w :
  unique_references (db w) ->
  unique_references (db (snd (webhook E body sig w))) /\
  unique_references (db (snd (create E user planId paymentMethodId w))) /\
  unique_references (db (snd (cancel E user id flag w))) /\
  unique_references (db (snd (reactivate E user id w))).
Proof.
  intros H. split; [|split; [|split]].
  - destruct (payments_untouched E) as (Pu & Pd & Pc).
    destruct (webhook_db E body sig w) as [-> | (event & _ & Hd)];
      [exact H|].
    destruct event; rewrite Hd.
    + exact (webhook_frame_unique _ _ (subscription_update_frame E o w)
               (Pu o w) H).
    + exact (webhook_frame_unique _ _ (subscription_update_frame E o w)
               (Pu o w) H).
    + exact (webhook_frame_unique _ _ (subscription_deleted_frame E o w)
               (Pd o w) H).
    + exact (payment_succeeded_unique E o w H).
    + exact (payment_failed_unique E o w H).
    + exact (webhook_frame_unique _ _ (customer_created_frame E o w)
               (Pc o w) H).
    + exact H.
  - unfold create, prisma_plan_findUnique, prisma_user_update,
      prisma_subscription_create, prisma_userActivity_create, unit_answer.
    run. repeat branch; unique.
  - unfold cancel, prisma_subscription_findFirst, prisma_subscription_update,
      prisma_userActivity_create, unit_answer.
    run. repeat branch; unique.
  - unfold reactivate, prisma_subscription_findFirst,
      prisma_subscription_update, prisma_userActivity_create, unit_answer.
    run. repeat branch; unique.
Qed.

Lemma unique_references_kept_witness :
  unique_references
    (db (snd (webhook (demo_env no_fault true) "{}" (Some "good")
                active_world))).
Proof.
  refine (proj1 (unique_references_kept (demo_env no_fault true) "{}"
                   (Some "good") u1 "plan_pro" "pm_1" "s1" None active_world
                   _)).
  split; simpl; repeat constructor; intros [].
Defined.

Lemma nth_error_update_first {A} (p : A -> bool) (f : A -> A) l n s :
  nth_error l n = Some s -> p s = false ->
  nth_error (update_first p f l) n = Some s.
Proof.
  revert n. induction l as [|x r IH]; intros [|n] H Hp; simpl in *;
    try discriminate.
  - injection H as ->. now rewrite Hp.
  - destruct (p x); simpl; [exact H | now apply IH].
Qed.

Lemma cancel_other_id E user (id : string) (flag : option Json) w n s :
  nth_error (subscriptions (db w)) n = Some s ->
  Subscription.id s <> id ->
  nth_error (subscriptions (db (snd (cancel E user id flag w)))) n = Some s.
Proof.
  intros Hn Hid.
  assert (Hm : matches (where_id id) s = false).
  { simpl. now apply String.eqb_neq. }
  unfold cancel, prisma_subscription_findFirst, prisma_subscription_update,
    prisma_userActivity_create, unit_answer.
  run. repeat branch; simpl;
    try exact Hn; apply nth_error_update_first; assumption.
Qed.

Lemma reactivate_other_id E user (id : string) w n s :
  nth_error (subscriptions (db w)) n = Some s ->
  Subscription.id s <> id ->
  nth_error (subscriptions (db (snd (reactivate E user id w)))) n = Some s.
Proof.
  intros Hn Hid.
  assert (Hm : matches (where_id id) s = false).
  { simpl. now apply String.eqb_neq. }
  unfold reactivate, prisma_subscription_findFirst,
    prisma_subscription_update, prisma_userActivity_create, unit_answer.
  run. repeat branch; simpl;
    try exact Hn; apply nth_error_update_first; assumption.
Qed.

(** Cancel and reactivate write only to the Subscription with the requested
    id: every other Subscription row is found afterwards at its place,
    unchanged, whatever the processor and the storage do. *)
Theorem cancel_reactivate_touch_one_id
    E user (id : string) (flag : option Json) w n s :
  nth_error (subscriptions (db w)) n = Some s ->
  Subscription.id s <> id ->
  nth_error (subscriptions (db (snd (cancel E user id flag w)))) n = Some s /\
  nth_error (subscriptions (db (snd (reactivate E user id w)))) n = Some s.
Proof.
  intros Hn Hid. split.
  - apply cancel_other_id; assumption.
  - apply reactivate_other_id; assumption.
Qed.

Lemma cancel_reactivate_touch_one_id_witness :
  let other := Subscription.mk "s2" "sub_2" SubscriptionStatus.TRIALING
                 "price_pro" 1 0 1 false None None None 0 0
                 "u2" None "plan_pro" in
  let w := mkWorld
             (mkDB [u1; u2] [pro]
                [demo_subscription SubscriptionStatus.ACTIVE false None; other]
                [] [])
             0 [] in
  nth_error
    (subscriptions (db (snd (cancel (demo_env no_fault true) u1 "s1" None w))))
    1 = Some other.
Proof.
  intros other w.
  refine (proj1 (cancel_reactivate_touch_one_id (demo_env no_fault true) u1
                   "s1" None w 1 other eq_refl _)).
  intros H. discriminate H.
Defined.

(** ** The authentication middleware *)

Lemma substring_all (t : string) : substring 0 (String.length t) t = t.
Proof. induction t as [|c r IH]; simpl; [reflexivity | now rewrite IH]. Qed.

Lemma strip_bearer (t : string) : replace_first "Bearer " "" ("Bearer " ++ t) = t.
Proof.
  simpl. replace (prefix "" t) with true by (destruct t; reflexivity).
  rewrite Nat.sub_0_r. apply substring_all.
Qed.

(** A request with a token that verifies for an existing user (sent as
    "Bearer <token>" in the Authorization header, or in the token cookie when
    there is no such header) reaches the route, which runs for the row of
    that user as stored at the time of the request. *)
Theorem credentials_reach_route
    E jwt_verify (route : User.t -> M Response)
    (authorization : option string) (cookies : option (option string))
    w (t uid : string) (u : User.t) :
  authorization = Some ("Bearer " ++ t) \/
  (authorization = None /\ cookies = Some (Some t)) ->
  nonempty t = true ->
  jwt_verify t = Some (Some uid) ->
  db_fault E (tick w) = false ->
  user_by_id uid (db w) = Some u ->
  protected E jwt_verify route authorization cookies w = route u (next w).
Proof.
  unfold user_by_id. intros Hc Ht Hj Hf Hu.
  assert (Htr : truthy_str (Some t) = true).
  { unfold truthy_str. simpl. now rewrite Ht. }
  assert (Hor : or_else (Some t) "" = t).
  { simpl. now rewrite Ht. }
  unfold protected, auth, prisma_user_findUnique.
  destruct Hc as [-> | [-> ->]].
  - cbn [option_map]. rewrite strip_bearer, Htr, Htr, Hor, Hj.
    run. rewrite Hf. simpl. rewrite Hu. reflexivity.
  - cbn [option_map]. change (truthy_str None) with false. cbv iota.
    rewrite Htr, Hor, Hj.
    run. rewrite Hf. simpl. rewrite Hu. reflexivity.
Qed.

Lemma protected_cases
    E jwt_verify (route : User.t -> M Response)
    (authorization : option string) (cookies : option (option string)) w :
  let out := protected E jwt_verify route authorization cookies w in
  ((fst out = Ok no_token \/ fst out = Ok invalid_token) /\
   db (snd out) = db w) \/
  (exists t uid u,
     presented_token authorization cookies = Some t /\
     jwt_verify t = Some (Some uid) /\
     user_by_id uid (db w) = Some u /\
     out = route u (next w)).
Proof.
  unfold user_by_id, protected, auth, prisma_user_findUnique, presented_token.
  destruct (if truthy_str (option_map (replace_first "Bearer " "") authorization)
            then Some (option_map (replace_first "Bearer " "") authorization)
            else cookies) as [token|]; [|left; run; auto].
  destruct (truthy_str token); [|left; run; auto].
  destruct (jwt_verify (or_else token "")) as [[uid|]|] eqn:Hj;
    [| left; run; auto | left; run; auto].
  run. destruct (db_fault E (tick w)); simpl; [left; auto|].
  destruct (find _ (users (db w))) as [u|] eqn:Hu; simpl; [|left; auto].
  right. exists (or_else token ""), uid, u. repeat split; auto.
Qed.

(** Whatever is sent, a protected route either is not run at all, the
    request being denied with 401 and nothing written, or runs for the user
    of the User table whose id the presented token carries. *)
Theorem protected_denies_or_runs
    E jwt_verify (route : User.t -> M Response)
    (authorization : option string) (cookies : option (option string)) w :
  let out := protected E jwt_verify route authorization cookies w in
  ((fst out = Ok no_token \/ fst out = Ok invalid_token) /\
   db (snd out) = db w) \/
  (exists t uid u,
     presented_token authorization cookies = Some t /\
     jwt_verify t = Some (Some uid) /\
     user_by_id uid (db w) = Some u /\
     out = route u (next w)).
Proof. apply protected_cases. Qed.

(** A request that presents no token is denied before anything happens: no
    token is verified, no storage call is made, the route is not run and
    the world is as it was. With cookies parsed the answer is 401 "No token,
    authorization denied". *)
Theorem no_token_denied
    E jwt_verify (route : User.t -> M Response)
    (authorization : option string) (cookies : option (option string)) w :
  presented_token authorization cookies = None ->
  let out := protected E jwt_verify route authorization cookies w in
  snd out = w /\
  (fst out = Ok no_token \/ fst out = Ok invalid_token) /\
  (cookies <> None -> fst out = Ok no_token).
Proof.
  unfold protected, auth, presented_token.
  destruct (truthy_str (option_map (replace_first "Bearer " "") authorization)).
  - destruct (truthy_str _); [discriminate|]. intros _. run. auto.
  - destruct cookies as [token|]; [|intros _; run; repeat split; auto;
                                     intros H; now destruct H].
    destruct (truthy_str token); [discriminate|]. intros _. run. auto.
Qed.

Lemma no_token_denied_witness :
  let out := protected (demo_env no_fault true) demo_jwt
               (fun u => cancel (demo_env no_fault true) u "s1" None)
               (Some "Bearer ") (Some None) active_world in
  snd out = active_world /\ fst out = Ok no_token.
Proof.
  destruct (no_token_denied (demo_env no_fault true) demo_jwt
              (fun u => cancel (demo_env no_fault true) u "s1" None)
              (Some "Bearer ") (Some None) active_world eq_refl)
    as (Hw & _ & Hn).
  split; [exact Hw|]. apply Hn. discriminate.
Defined.

Lemma credentials_reach_route_witness :
  let E := demo_env no_fault true in
  protected E demo_jwt (fun u => cancel E u "s1" None)
    (Some "Bearer token_of_u1") None active_world
    = cancel E u1 "s1" None (next active_world).
Proof.
  intros E.
  exact (credentials_reach_route E demo_jwt (fun u => cancel E u "s1" None)
           (Some "Bearer token_of_u1") None active_world "token_of_u1" "u1" u1
           (or_introl eq_refl) eq_refl eq_refl eq_refl eq_refl).
Defined.





(** ** The read routes *)

Lemma insert_desc_perm {A} (key : A -> Z) (x : A) (l : list A) :
  Permutation (insert_desc key x l) (x :: l).
Proof.
  induction l as [|y r IH]; simpl; [reflexivity|].
  destruct (key y <=? key x); [reflexivity|].
  rewrite IH. apply perm_swap.
Qed.

Lemma order_desc_perm {A} (key : A -> Z) (l : list A) :
  Permutation (order_desc key l) l.
Proof.
  induction l as [|x r IH]; simpl; [reflexivity|].
  rewrite insert_desc_perm. now constructor.
Qed.

Lemma insert_desc_sorted {A} (key : A -> Z) (x : A) (l : list A) :
  Sorted (newer_first key) l -> Sorted (newer_first key) (insert_desc key x l).
Proof.
  induction l as [|y r IH]; simpl; intros H.
  - repeat constructor.
  - destruct (key y <=? key x) eqn:Hle.
    + constructor; [exact H|]. constructor. unfold newer_first. lia.
    + inversion H as [|a b Hs Hh]; subst. constructor; [now apply IH|].
      destruct r as [|z t]; simpl.
      * constructor. unfold newer_first. lia.
      * destruct (key z <=? key x); constructor; unfold newer_first.
        -- lia.
        -- inversion Hh; subst. assumption.
Qed.

Lemma order_desc_sorted {A} (key : A -> Z) (l : list A) :
  Sorted (newer_first key) (order_desc key l).
Proof.
  induction l as [|x r IH]; simpl; [constructor|].
  now apply insert_desc_sorted.
Qed.


Lemma find_snoc_absent {A} (p : A -> bool) (l : list A) (x : A) :
  (forall y, In y l -> p y = false) ->
  find p (l ++ [x]) = if p x then Some x else None.
Proof.
  induction l as [|y r IH]; simpl; intros H; [reflexivity|].
  rewrite (H y (or_introl eq_refl)). apply IH.
  intros z Hz. apply H. now right.
Qed.

(** The payment detail never writes and answers 200 only with a Payment row
    of the table that has the requested id and belongs to the caller;
    otherwise 404 "Payment not found", or 500 when the storage call fails. *)
Theorem payment_detail_own_only E user (id : string) w :
  let out := payment_detail E user id w in
  db (snd out) = db w /\
  (fst out = Ok read_server_error \/
   fst out = Ok payment_not_found \/
   exists p s,
     fst out = Ok (mkRead 200 (payment_data p s)) /\
     In p (payments (db w)) /\
     Payment.id p = id /\
     Payment.userId p = User.id user).
Proof.
  unfold payment_detail. run.
  destruct (db_fault E (tick w)); simpl; [split; [reflexivity|now left]|].
  destruct (find _ (payments (db w))) as [p|] eqn:Hp; simpl;
    (split; [reflexivity|]); right; [right|now left].
  destruct (find_some _ _ Hp) as [Hin Hown].
  unfold own_payment in Hown. apply andb_prop in Hown.
  destruct Hown as [Hi Hu].
  apply String.eqb_eq in Hi. apply String.eqb_eq in Hu.
  exists p, (join_subscription (db w) p). repeat split; assumption.
Qed.

(** The first delivery, with the id of the row it files. *)
Lemma payment_succeeded_files_row
    E (invoice : Stripe.Invoice) w (r pid : string) (sub : Subscription.t) :
  (forall n, db_fault E n = false) ->
  Stripe.subscription invoice = Ref r ->
  nonempty r = true ->
  by_reference r (db w) = Some sub ->
  Stripe.payment_intent invoice = Ref pid ->
  int32 (Stripe.amount_paid invoice) = true ->
  fresh_payment (db w) pid ->
  exists p a,
    (Payment.id p = cuid E (S (tick w)) /\
     Payment.stripePaymentId p = pid /\
     Payment.amount p = Stripe.amount_paid invoice /\
     Payment.status p = PaymentStatus.SUCCEEDED /\
     Payment.userId p = Subscription.userId sub) /\
    db (snd (handlePaymentSucceeded E invoice w))
      = add_activity a (add_payment p (db w)).
Proof.
  unfold by_reference. intros Hf Hs Hr Hsub Hpi Hamt Hfresh.
  apply fresh_payment_existsb in Hfresh. unfold has_reference in Hfresh.
  unfold handlePaymentSucceeded, prisma_subscription_findUnique,
    prisma_payment_create, prisma_userActivity_create.
  rewrite Hs, Hpi. cbn [truthy_exp]. rewrite Hr. run.
  rewrite Hamt, !Hf. simpl. rewrite Hsub. simpl.
  rewrite !Hf, Hfresh. simpl. rewrite !Hf. simpl.
  do 2 eexists. split; [|reflexivity]. repeat split.
Qed.

(** A payment filed by the webhook is served by the payment detail: after a
    payment-succeeded delivery for a known subscription (storage working,
    reference and generated id new to the table), the owner of the
    subscription who asks for the generated id gets the row with the
    delivered reference, amount and status; any other user gets 404. *)
Theorem filed_payment_is_served
    E (invoice : Stripe.Invoice) w (r pid : string) (sub : Subscription.t)
    (owner stranger : User.t) :
  (forall n, db_fault E n = false) ->
  Stripe.subscription invoice = Ref r ->
  nonempty r = true ->
  by_reference r (db w) = Some sub ->
  Stripe.payment_intent invoice = Ref pid ->
  int32 (Stripe.amount_paid invoice) = true ->
  fresh_payment (db w) pid ->
  (forall q, In q (payments (db w)) -> Payment.id q <> cuid E (S (tick w))) ->
  User.id owner = Subscription.userId sub ->
  User.id stranger <> Subscription.userId sub ->
  let w1 := snd (handlePaymentSucceeded E invoice w) in
  (exists p s,
     fst (payment_detail E owner (cuid E (S (tick w))) w1)
       = Ok (mkRead 200 (payment_data p s)) /\
     Payment.stripePaymentId p = pid /\
     Payment.amount p = Stripe.amount_paid invoice /\
     Payment.status p = PaymentStatus.SUCCEEDED) /\
  fst (payment_detail E stranger (cuid E (S (tick w))) w1)
    = Ok payment_not_found.
Proof.
  intros Hf Hs Hr Hsub Hpi Hamt Hfresh Hid Ho Hst w1.
  destruct (payment_succeeded_files_row E invoice w r pid sub
              Hf Hs Hr Hsub Hpi Hamt Hfresh)
    as (p & a & (Pi & Pr & Pa & Ps & Pu) & H1).
  fold w1 in H1.
  assert (Hold : forall u q, In q (payments (db w)) ->
                   own_payment (cuid E (S (tick w))) u q = false).
  { intros u q Hq. unfold own_payment.
    apply (Hid q) in Hq. apply String.eqb_neq in Hq. now rewrite Hq. }
  split.
  - exists p, (join_subscription (db w1) p).
    unfold payment_detail. run. rewrite Hf. simpl. rewrite H1. simpl.
    rewrite (find_snoc_absent _ _ _ (Hold (User.id owner))).
    unfold own_payment. rewrite Pi, Pu, Ho, !String.eqb_refl. simpl.
    repeat split; assumption.
  - unfold payment_detail. run. rewrite Hf. simpl. rewrite H1. simpl.
    rewrite (find_snoc_absent _ _ _ (Hold (User.id stranger))).
    unfold own_payment. rewrite Pi, Pu, String.eqb_refl. simpl.
    apply String.eqb_neq in Hst. rewrite String.eqb_sym, Hst. reflexivity.
Qed.

Lemma filed_payment_is_served_witness :
  let E := demo_env no_fault true in
  let w1 := snd (handlePaymentSucceeded E demo_invoice active_world) in
  (exists p s,
     fst (payment_detail E u1 "c1" w1) = Ok (mkRead 200 (payment_data p s)) /\
     Payment.stripePaymentId p = "pi_1") /\
  fst (payment_detail E u2 "c1" w1) = Ok payment_not_found.
Proof.
  intros E w1.
  destruct (filed_payment_is_served E demo_invoice active_world
              "sub_1" "pi_1"
              (demo_subscription SubscriptionStatus.ACTIVE false None) u1 u2
              (demo_no_fault true) eq_refl eq_refl eq_refl eq_refl eq_refl
              (fun q (H : In q []) => match H with end)
              (fun q (H : In q []) => match H with end) eq_refl)
    as ((p & s & Hr & Hp & _) & Hn).
  - discriminate.
  - split; [exists p, s; split; assumption | exact Hn].
Defined.

Lemma sum_quantity_spec (l : list UsageRecord.t) :
  sum_quantity l = fold_right Z.add 0 (map UsageRecord.quantity l).
Proof.
  unfold sum_quantity.
  assert (H : forall a,
             fold_left (fun sum r => sum + UsageRecord.quantity r) l a
             = a + fold_right Z.add 0 (map UsageRecord.quantity l)).
  { induction l as [|x r IH]; intros a; simpl; [lia|]. rewrite IH. lia. }
  rewrite H. lia.
Qed.

Lemma sum_quantity_perm (l l' : list UsageRecord.t) :
  Permutation l l' -> sum_quantity l = sum_quantity l'.
Proof.
  rewrite !sum_quantity_spec.
  induction 1; simpl; lia.
Qed.

Lemma sum_quantity_filter (p : UsageRecord.t -> bool) (l : list UsageRecord.t) :
  (forall r, In r l -> 0 <= UsageRecord.quantity r) ->
  0 <= sum_quantity (filter p l) <= sum_quantity l.
Proof.
  rewrite !sum_quantity_spec.
  induction l as [|x r IH]; simpl; intros H; [lia|].
  pose proof (H x (or_introl eq_refl)).
  assert (Hr : forall y, In y r -> 0 <= UsageRecord.quantity y)
    by (intros y Hy; apply H; now right).
  specialize (IH Hr). destruct (p x); simpl; lia.
Qed.

Lemma in_firstn {A} (n : nat) (l : list A) (x : A) :
  In x (firstn n l) -> In x l.
Proof.
  intros H. rewrite <- (firstn_skipn n l). apply in_or_app. now left.
Qed.

Lemma firstn_sorted {A} (R : A -> A -> Prop) (n : nat) (l : list A) :
  Sorted R l -> Sorted R (firstn n l).
Proof.
  intros H. revert n.
  induction H as [|a l Hs IH Hh]; intros [|n]; simpl; try constructor.
  - apply IH.
  - destruct Hh as [|b t Hab]; destruct n; simpl; constructor. exact Hab.
Qed.

Lemma recent_usage_in tbl s r :
  In r (recent_usage tbl s) -> In r tbl /\ usage_of s r = true.
Proof.
  unfold recent_usage. intros H. apply in_firstn in H.
  apply (Permutation_in _ (order_desc_perm _ _)) in H.
  apply filter_In in H. exact H.
Qed.

Lemma newer_first_strongly {A} (key : A -> Z) (l : list A) :
  Sorted (newer_first key) l -> StronglySorted (newer_first key) l.
Proof.
  apply Sorted_StronglySorted. intros x y z Hxy Hyz.
  unfold newer_first in *. lia.
Qed.

Lemma firstn_skipn_ordered {A} (R : A -> A -> Prop) (l : list A) :
  StronglySorted R l ->
  forall n x y, In x (firstn n l) -> In y (skipn n l) -> R x y.
Proof.
  induction 1 as [|a t Hs IH Ha]; intros [|n] x y Hx Hy; simpl in *;
    try contradiction.
  destruct Hx as [<- | Hx].
  - rewrite Forall_forall in Ha. apply Ha.
    rewrite <- (firstn_skipn n t). apply in_or_app. now right.
  - exact (IH n x y Hx Hy).
Qed.

(** What a 200 answer of the usage route says. The subscription has the
    requested id and belongs to the caller. The records are records of that
    subscription, newest first, and they are its 100 newest (all of them
    when it has no more than 100): together with the records left out they
    make up the subscription's records in the table, and no record left out
    is newer than an answered one. The total is the sum over the answered
    records: beyond 100 records the older ones are not counted, up to 100
    the total is the sum over all the subscription's records. The monthly
    usage is the sum over the answered records stamped at or after the start
    of the month of the clock reading; with no negative quantity in the
    table it lies between 0 and the total. *)
Theorem usage_statistics
    E start_of_month tbl user (id : string) w s total monthly records :
  fst (usage E start_of_month tbl user id w)
    = Ok (mkRead 200 (usage_data s total monthly records)) ->
  (In s (subscriptions (db w)) /\
   Subscription.id s = id /\
   Subscription.userId s = User.id user) /\
  ((List.length records <= 100)%nat /\
   Forall (fun r => usage_of s r = true) records /\
   Sorted (newer_first UsageRecord.timestamp) records) /\
  total = sum_quantity records /\
  ((List.length (filter (usage_of s) tbl) <= 100)%nat ->
   total = sum_quantity (filter (usage_of s) tbl)) /\
  ((forall r, In r tbl -> 0 <= UsageRecord.quantity r) ->
   0 <= monthly <= total) /\
  (exists older,
     Permutation (records ++ older) (filter (usage_of s) tbl) /\
     (forall r r', In r records -> In r' older ->
                   UsageRecord.timestamp r' <= UsageRecord.timestamp r) /\
     List.length records
       = Nat.min 100 (List.length (filter (usage_of s) tbl))) /\
  monthly
    = sum_quantity
        (filter
           (fun r => start_of_month (clock E (S (tick w)))
                       <=? UsageRecord.timestamp r)
           records).
Proof.
  unfold usage. run.
  destruct (db_fault E (tick w)); simpl; [discriminate|].
  destruct (find _ (subscriptions (db w))) as [s0|] eqn:Hs; simpl;
    [|discriminate].
  intros H. injection H as <- <- <- <-.
  destruct (find_some _ _ Hs) as [Hin Hm]. simpl in Hm.
  apply andb_prop in Hm. destruct Hm as [Hi Hu].
  apply String.eqb_eq in Hi. apply String.eqb_eq in Hu.
  split; [auto|].
  split; [|split; [reflexivity|split; [|split; [|split; [|reflexivity]]]]].
  - split; [apply firstn_le_length|]. split.
    + apply Forall_forall. intros r Hr.
      exact (proj2 (recent_usage_in _ _ _ Hr)).
    + apply firstn_sorted, order_desc_sorted.
  - intros Hlen. unfold recent_usage.
    rewrite firstn_all2.
    + apply sum_quantity_perm, order_desc_perm.
    + rewrite (Permutation_length (order_desc_perm _ _)). exact Hlen.
  - intros Hq. apply sum_quantity_filter.
    intros r Hr. apply Hq. exact (proj1 (recent_usage_in _ _ _ Hr)).
  - unfold recent_usage.
    exists (skipn 100 (order_desc UsageRecord.timestamp
                         (filter (usage_of s0) tbl))).
    split; [|split].
    + rewrite firstn_skipn. apply order_desc_perm.
    + intros r r' Hr Hr'.
      exact (firstn_skipn_ordered _ _
               (newer_first_strongly _ _ (order_desc_sorted _ _))
               100%nat r r' Hr Hr').
    + rewrite length_firstn.
      now rewrite (Permutation_length (order_desc_perm _ _)).
Qed.

Lemma usage_statistics_witness :
  let out := usage (demo_env no_fault true) (fun _ => 1700000000000)
               demo_usage u1 "s1" active_world in
  (exists s records,
     fst out = Ok (mkRead 200 (usage_data s 12 7 records)) /\
     map UsageRecord.id records = ["r2"; "r1"]) /\
  0 <= 7 <= 12.
Proof.
  intros out. split.
  - do 2 eexists. split; [vm_compute; reflexivity | reflexivity].
  - destruct (usage_statistics (demo_env no_fault true)
                (fun _ => 1700000000000) demo_usage u1 "s1" active_world
                _ 12 7 _ eq_refl)
      as (_ & _ & _ & _ & Hm & _).
    apply Hm. intros r [<- | [<- | [<- | []]]]; simpl; lia.
Defined.
